(** * Behavioral authentication system: decision engine

    A shallow embedding of the continuous-authentication core of
    [behavior_auth_system]:

    - [src/ml/behavior_models.py]   (classifier / anomaly detector guards,
      [AdaptiveThresholds], [MLManager.analyze_behavior]),
    - [src/auth/adaptive_response.py] ([ResponseEngine], [ChallengeManager]),
    - [src/security/encryption.py]  ([SessionToken], [SessionManager]),
    - [src/security/security_manager.py] ([SecurityManager]),
    - [src/core/behavioral_manager.py] ([BehavioralDataManager] session part),
    - [src/auth/auth_manager.py]    ([AuthenticationManager]),
    - [src/ui/config_manager.py]    (threshold part of [validate_config]).

    Conventions.  Python floats are modelled by exact rationals [Q]; equality
    of scores is therefore stated with [==].  Python dicts are [gmap]s, str is
    [string], [Optional[T]] is [option T].  [time.time()] readings are passed
    in as arguments, one per call made by the source.  A Python call that
    either returns or raises is an [Outcome]. *)

From Stdlib Require Import QArith Qminmax Lqa ZArith Lia String List.
From stdpp Require Import base option gmap strings list.
Import ListNotations.

Local Open Scope string_scope.
Local Open Scope list_scope.
Local Open Scope Q_scope.

(** ** Python primitives *)

Inductive Outcome (A : Type) : Type :=
  | Returned (a : A)
  | Raised (msg : string).
Arguments Returned {A} a.
Arguments Raised {A} msg.

Module Py.

(** [max(a, b)]: the first argument unless the second is strictly larger. *)
Definition max (a b : Q) : Q := if Qlt_le_dec a b then b else a.

(** [min(a, b)]: the first argument unless the second is strictly smaller. *)
Definition min (a b : Q) : Q := if Qlt_le_dec b a then b else a.

(** [a >= b], [a > b], [a < b], [a <= b] on floats. *)
Definition ge (a b : Q) : bool := Qle_bool b a.
Definition gt (a b : Q) : bool := negb (Qle_bool a b).
Definition lt (a b : Q) : bool := negb (Qle_bool b a).
Definition le (a b : Q) : bool := Qle_bool a b.

(** Truth value of an [Optional[str]]: [None] and [''] are falsy. *)
Definition truthy (o : option string) : bool :=
  match o with
  | Some s => negb (String.eqb s "")
  | None => false
  end.

(** [d.get(k, '')] for a string-valued entry. *)
Definition get_str (o : option string) : string := default "" o.

(** [x in xs] for a list of strings. *)
Definition str_in (x : string) (xs : list string) : bool :=
  existsb (String.eqb x) xs.

End Py.

(** ** Configuration

    The nested configuration dict, restricted to the keys the engine reads.
    A missing key is [None]; the readers below supply the source's defaults. *)

Module Cfg.

Record ConfidenceLevels : Type := {
  high : option Q;
  medium : option Q;
  low : option Q
}.

Record Challenges : Type := {
  max_attempts : option Z;
  lockout_duration : option Q
}.

Record Authentication : Type := {
  confidence_levels : option ConfidenceLevels;
  challenges : option Challenges
}.

Record SessionSettings : Type := {
  timeout_minutes : option Q;
  idle_timeout_minutes : option Q;
  max_concurrent_sessions : option nat
}.

Record Config : Type := {
  authentication : option Authentication;
  security_session : option SessionSettings
}.

(** [config.get('authentication', {}).get('confidence_levels', {}).get(k, d)] *)
Definition level (config : Config) (k : ConfidenceLevels -> option Q) (d : Q) : Q :=
  default d ((authentication config ≫= confidence_levels) ≫= k).

(** [config.get('authentication', {}).get('challenges', {}).get(k, d)] *)
Definition challenge {A} (config : Config) (k : Challenges -> option A) (d : A) : A :=
  default d ((authentication config ≫= challenges) ≫= k).

(** [config.get('security', {}).get('session', {}).get(k, d)] *)
Definition session {A} (config : Config) (k : SessionSettings -> option A) (d : A) : A :=
  default d (security_session config ≫= k).

End Cfg.

(** ** [ConfigManager.validate_config], the block "Validate authentication
    thresholds": the errors it appends. *)
Module ConfigManager.

Definition ordering_error : string :=
  "Authentication confidence levels must be: low <= medium <= high".

Definition validate_thresholds (config : Cfg.Config) : list string :=
  match Cfg.authentication config with
  | Some auth =>
      match Cfg.confidence_levels auth with
      | Some levels =>
          let h := default 0 (Cfg.high levels) in
          let m := default 0 (Cfg.medium levels) in
          let l := default 0 (Cfg.low levels) in
          if negb (Py.le l m && Py.le m h) then [ordering_error] else []
      | None => []
      end
  | None => []
  end.

End ConfigManager.

(** ** [AdaptiveThresholds] *)
Module AdaptiveThresholds.

Record t : Type := {
  thresholds : gmap string Q;
  context_adjustments : gmap string Q;
  learning_rate : Q
}.

(** [__init__]: reads the three base values and stores them; the body has
    no validation and no [raise]. *)
Definition init (config : Cfg.Config) : t :=
  {| thresholds :=
       <["high_confidence" := Cfg.level config Cfg.high 0.9]>
       (<["medium_confidence" := Cfg.level config Cfg.medium 0.7]>
       (<["low_confidence" := Cfg.level config Cfg.low 0.5]> ∅));
     context_adjustments := ∅;
     learning_rate := 0.1 |}.

(** The constructor call [AdaptiveThresholds(config)] as an outcome. *)
Definition construct (config : Cfg.Config) : Outcome t := Returned (init config).

Definition adjust_threshold (self : t) (context feedback : string) (current_score : Q) : t :=
  (* if context not in self.context_adjustments: ... = 0.0 *)
  let adj0 := default 0 (context_adjustments self !! context) in
  let adj1 :=
    if String.eqb feedback "false_positive" then
      adj0 - learning_rate self * current_score
    else if String.eqb feedback "false_negative" then
      adj0 + learning_rate self * (1 - current_score)
    else adj0 in
  {| thresholds := thresholds self;
     context_adjustments :=
       <[context := Py.max (-0.3) (Py.min 0.3 adj1)]> (context_adjustments self);
     learning_rate := learning_rate self |}.

Definition get_threshold (self : t) (level context : string) : Q :=
  let base_threshold := default 0.7 (thresholds self !! level) in
  let adjustment := default 0 (context_adjustments self !! context) in
  let adjusted_threshold := base_threshold + adjustment in
  Py.max 0.1 (Py.min 0.95 adjusted_threshold).

(** One feedback call, and a finite sequence of them. *)
Record call : Type := {
  call_context : string;
  call_feedback : string;
  call_score : Q
}.

Definition apply_call (self : t) (c : call) : t :=
  adjust_threshold self (call_context c) (call_feedback c) (call_score c).

Definition run (self : t) (cs : list call) : t := fold_left apply_call cs self.

End AdaptiveThresholds.

(** ** The two models

    Features are a dict from names to floats.  What a trained scikit-learn
    model answers is outside the repository: it is the field [trained_score],
    which may raise.  The guards around it are the source's. *)

Abbreviation Features := (gmap string Q).

Record Model : Type := {
  is_trained : bool;
  trained_score : Features -> Outcome Q
}.

Module BehaviorClassifier.

(** [predict]: the confidence and the ['error'] entry of the details. *)
Definition predict (self : Model) (features : Features) : Q * option string :=
  if negb (is_trained self) then (0.0, Some "Model not trained")
  else match trained_score self features with
       | Returned confidence => (confidence, None)
       | Raised e => (0.0, Some e)
       end.

End BehaviorClassifier.

Module AnomalyDetector.

(** [predict]: the anomaly score (higher = more anomalous) and the
    ['error'] entry of the details. *)
Definition predict (self : Model) (features : Features) : Q * option string :=
  if negb (is_trained self) then (1.0, Some "Model not trained")
  else match trained_score self features with
       | Returned normalized_score => (normalized_score, None)
       | Raised e => (1.0, Some e)
       end.

End AnomalyDetector.

(** ** [MLManager.analyze_behavior] *)

Inductive Decision : Type := Continue | Monitor | Challenge | Logout.

Definition decision_value (d : Decision) : string :=
  match d with
  | Continue => "continue"
  | Monitor => "monitor"
  | Challenge => "challenge"
  | Logout => "logout"
  end.

(** Trust order: continue > monitor > challenge > logout. *)
Definition trust (d : Decision) : nat :=
  match d with
  | Continue => 3
  | Monitor => 2
  | Challenge => 1
  | Logout => 0
  end.

Module MLManager.

Record t : Type := {
  behavior_classifier : Model;
  anomaly_detector : Model;
  adaptive_thresholds : AdaptiveThresholds.t
}.

Record analysis : Type := {
  decision : Decision;
  confidence_level : string;
  combined_confidence : Q;
  auth_confidence : Q;
  anomaly_score : Q;
  high_threshold : Q;
  medium_threshold : Q;
  low_threshold : Q
}.

(** The if/elif cascade "Determine authentication decision". *)
Definition determine (high_threshold medium_threshold low_threshold combined : Q)
  : Decision * string :=
  if Py.ge combined high_threshold then (Continue, "high")
  else if Py.ge combined medium_threshold then (Monitor, "medium")
  else if Py.ge combined low_threshold then (Challenge, "low")
  else (Logout, "very_low").

Definition analyze_behavior (self : t) (features : Features) (context : string) : analysis :=
  let auth := fst (BehaviorClassifier.predict (behavior_classifier self) features) in
  let anomaly := fst (AnomalyDetector.predict (anomaly_detector self) features) in
  let combined := (auth + (1 - anomaly)) / 2 in
  let h := AdaptiveThresholds.get_threshold (adaptive_thresholds self) "high_confidence" context in
  let m := AdaptiveThresholds.get_threshold (adaptive_thresholds self) "medium_confidence" context in
  let l := AdaptiveThresholds.get_threshold (adaptive_thresholds self) "low_confidence" context in
  let d := determine h m l combined in
  {| decision := fst d;
     confidence_level := snd d;
     combined_confidence := combined;
     auth_confidence := auth;
     anomaly_score := anomaly;
     high_threshold := h;
     medium_threshold := m;
     low_threshold := l |}.

Definition init (config : Cfg.Config) (classifier detector : Model) : t :=
  {| behavior_classifier := classifier;
     anomaly_detector := detector;
     adaptive_thresholds := AdaptiveThresholds.init config |}.

End MLManager.

(** ** [ResponseEngine] *)

Inductive ResponseAction : Type :=
  | CONTINUE | MONITOR | CHALLENGE_PIN | CHALLENGE_BIOMETRIC | CHALLENGE_SMS
  | RESTRICT_FUNCTIONS | LOCK_SESSION | LOGOUT | ALERT_ADMIN.

Inductive AlertSeverity : Type := INFO | LOW | MEDIUM | HIGH | CRITICAL.

#[global] Instance ResponseAction_eq_dec : EqDecision ResponseAction.
Proof. solve_decision. Defined.

#[global] Instance AlertSeverity_eq_dec : EqDecision AlertSeverity.
Proof. solve_decision. Defined.

(** Severity order: info < low < medium < high < critical. *)
Definition severity_rank (s : AlertSeverity) : nat :=
  match s with
  | INFO => 0
  | LOW => 1
  | MEDIUM => 2
  | HIGH => 3
  | CRITICAL => 4
  end.

(** The contextual booleans of [security_context]; an absent key is [false]. *)
Record SecurityContext : Type := {
  device_mismatch : bool;
  location_change : bool;
  time_anomaly : bool
}.

Definition no_signals : SecurityContext :=
  {| device_mismatch := false; location_change := false; time_anomaly := false |}.

Module ResponseEngine.

Record alert : Type := {
  severity : AlertSeverity;
  confidence_score : Q;
  risk_factors : list string;
  recommended_actions : list ResponseAction
}.

(** "Base severity from confidence". *)
Definition base_severity (confidence : Q) : AlertSeverity :=
  if Py.lt confidence 0.2 then CRITICAL
  else if Py.lt confidence 0.4 then HIGH
  else if Py.lt confidence 0.6 then MEDIUM
  else LOW.

(** "Adjust for anomaly score". *)
Definition adjust_for_anomaly (anomaly_score : Q) (base : AlertSeverity) : AlertSeverity :=
  if Py.gt anomaly_score 0.8 then
    match base with
    | LOW | MEDIUM => HIGH
    | _ => base
    end
  else base.

Definition critical_factors : list string :=
  ["device_fingerprint_mismatch"; "very_low_behavioral_confidence"].

(** [any(factor in risk_factors for factor in critical_factors)] *)
Definition has_critical_factor (risk_factors : list string) : bool :=
  existsb (fun factor => Py.str_in factor risk_factors) critical_factors.

(** "Adjust for risk factors". *)
Definition adjust_for_risk_factors (risk_factors : list string) (base : AlertSeverity)
  : AlertSeverity :=
  if has_critical_factor risk_factors then
    match base with
    | CRITICAL => CRITICAL
    | _ => HIGH
    end
  else base.

Definition _calculate_severity (confidence anomaly_score : Q) (risk_factors : list string)
  : AlertSeverity :=
  adjust_for_risk_factors risk_factors
    (adjust_for_anomaly anomaly_score (base_severity confidence)).

(** "Remove duplicates while preserving order". *)
Definition unique (actions : list ResponseAction) : list ResponseAction :=
  fold_left (fun unique_actions action =>
               if bool_decide (action ∈ unique_actions) then unique_actions
               else unique_actions ++ [action])
            actions [].

Definition _recommend_actions (confidence_level : string) (sev : AlertSeverity)
    (risk_factors : list string) : list ResponseAction :=
  let a1 :=
    if String.eqb confidence_level "high" then [CONTINUE]
    else if String.eqb confidence_level "medium" then [MONITOR; CONTINUE]
    else if String.eqb confidence_level "low" then [CHALLENGE_PIN; MONITOR]
    else [LOGOUT; ALERT_ADMIN] in
  let a2 :=
    match sev with
    | CRITICAL => a1 ++ [LOGOUT; ALERT_ADMIN; LOCK_SESSION]
    | HIGH => a1 ++ [CHALLENGE_BIOMETRIC; RESTRICT_FUNCTIONS]
    | _ => a1
    end in
  let a3 :=
    if Py.str_in "device_fingerprint_mismatch" risk_factors
    then a2 ++ [CHALLENGE_SMS] else a2 in
  let a4 :=
    if Py.str_in "unusual_location" risk_factors
    then a3 ++ [CHALLENGE_BIOMETRIC] else a3 in
  unique a4.

(** "Identify risk factors". *)
Definition identify_risk_factors (confidence anomaly_score : Q) (ctx : SecurityContext)
  : list string :=
  (if Py.lt confidence 0.3 then ["very_low_behavioral_confidence"]
   else if Py.lt confidence 0.5 then ["low_behavioral_confidence"] else [])
  ++ (if Py.gt anomaly_score 0.7 then ["high_anomaly_score"] else [])
  ++ (if device_mismatch ctx then ["device_fingerprint_mismatch"] else [])
  ++ (if location_change ctx then ["unusual_location"] else [])
  ++ (if time_anomaly ctx then ["unusual_time_pattern"] else []).

Definition analyze_risk (behavioral_analysis : MLManager.analysis)
    (security_context : SecurityContext) : alert :=
  let confidence := MLManager.combined_confidence behavioral_analysis in
  let confidence_level := MLManager.confidence_level behavioral_analysis in
  let anomaly_score := MLManager.anomaly_score behavioral_analysis in
  let factors := identify_risk_factors confidence anomaly_score security_context in
  let sev := _calculate_severity confidence anomaly_score factors in
  {| severity := sev;
     confidence_score := confidence;
     risk_factors := factors;
     recommended_actions := _recommend_actions confidence_level sev factors |}.

End ResponseEngine.

(** ** [ChallengeManager] *)
Module ChallengeManager.

Record AuthChallenge : Type := {
  challenge_id : string;
  challenge_type : string;
  user_id : string;
  session_id : string;
  created_at : Q;
  expires_at : Q;
  attempts_remaining : Z;
  is_completed : bool;
  is_successful : bool
}.

(** The response dict, restricted to the keys the validators read. *)
Record Response : Type := {
  pin : option string;
  expected_pin : option string;
  biometric_data : option string;
  biometric_confidence : option Q;
  sms_code : option string;
  expected_code : option string
}.

Record t : Type := {
  active_challenges : gmap string AuthChallenge;
  max_attempts : Z;
  challenge_timeout : Q
}.

Definition init (config : Cfg.Config) : t :=
  {| active_challenges := ∅;
     max_attempts := Cfg.challenge config Cfg.max_attempts 3%Z;
     challenge_timeout := Cfg.challenge config Cfg.lockout_duration 300 |}.

(** [create_challenge]; [uuid] is the fresh [uuid.uuid4()], [now1] and
    [now2] the two clock readings. *)
Definition create_challenge (self : t) (challenge_type user_id session_id : string)
    (uuid : string) (now1 now2 : Q) : option AuthChallenge * t :=
  let challenge :=
    {| challenge_id := uuid;
       challenge_type := challenge_type;
       user_id := user_id;
       session_id := session_id;
       created_at := now1;
       expires_at := now2 + challenge_timeout self;
       attempts_remaining := max_attempts self;
       is_completed := false;
       is_successful := false |} in
  (Some challenge,
   {| active_challenges := <[uuid := challenge]> (active_challenges self);
      max_attempts := max_attempts self;
      challenge_timeout := challenge_timeout self |}).

Definition _validate_pin_challenge (challenge : AuthChallenge) (response : Response)
  : bool * string :=
  let provided_pin := Py.get_str (pin response) in
  let expected_pin := Py.get_str (expected_pin response) in
  if String.eqb provided_pin "" then (false, "PIN not provided")
  else if String.eqb provided_pin expected_pin then (true, "PIN verified")
  else (false, "Invalid PIN").

Definition _validate_biometric_challenge (challenge : AuthChallenge) (response : Response)
  : bool * string :=
  if negb (Py.truthy (biometric_data response)) then (false, "Biometric data not provided")
  else
    let confidence := default 0.0 (biometric_confidence response) in
    if Py.ge confidence 0.8 then (true, "Biometric verified")
    else (false, "Biometric verification failed").

Definition _validate_sms_challenge (challenge : AuthChallenge) (response : Response)
  : bool * string :=
  let provided_code := Py.get_str (sms_code response) in
  let expected_code := Py.get_str (expected_code response) in
  if String.eqb provided_code "" then (false, "SMS code not provided")
  else if String.eqb provided_code expected_code then (true, "SMS code verified")
  else (false, "Invalid SMS code").

Definition _validate_challenge_response (challenge : AuthChallenge) (response : Response)
  : bool * string :=
  let ty := challenge_type challenge in
  if String.eqb ty "pin" then _validate_pin_challenge challenge response
  else if String.eqb ty "biometric" then _validate_biometric_challenge challenge response
  else if String.eqb ty "sms" then _validate_sms_challenge challenge response
  else (false, String.append "Unknown challenge type: " ty).

Definition _cleanup_challenge (self : t) (challenge_id : string) : t :=
  {| active_challenges := delete challenge_id (active_challenges self);
     max_attempts := max_attempts self;
     challenge_timeout := challenge_timeout self |}.

(** The challenge object is shared with the dict: a field update is an
    update of the stored entry. *)
Definition store (self : t) (challenge_id : string) (challenge : AuthChallenge) : t :=
  {| active_challenges := <[challenge_id := challenge]> (active_challenges self);
     max_attempts := max_attempts self;
     challenge_timeout := challenge_timeout self |}.

Definition set_outcome (c : AuthChallenge) (remaining : Z) (completed successful : bool)
  : AuthChallenge :=
  {| challenge_id := challenge_id c;
     challenge_type := challenge_type c;
     user_id := user_id c;
     session_id := session_id c;
     created_at := created_at c;
     expires_at := expires_at c;
     attempts_remaining := remaining;
     is_completed := completed;
     is_successful := successful |}.

Definition process_challenge_response (self : t) (challenge_id : string)
    (response : Response) (now : Q) : (bool * string) * t :=
  match active_challenges self !! challenge_id with
  | None => ((false, "Challenge not found or expired"), self)
  | Some challenge =>
      if Py.gt now (expires_at challenge) then
        ((false, "Challenge expired"), _cleanup_challenge self challenge_id)
      else if is_completed challenge then
        ((is_successful challenge, "Challenge already completed"), self)
      else
        let '(success, message) := _validate_challenge_response challenge response in
        if success then
          ((success, message),
           store self challenge_id
             (set_outcome challenge (attempts_remaining challenge) true true))
        else
          let remaining := (attempts_remaining challenge - 1)%Z in
          if (remaining <=? 0)%Z then
            ((success, "Maximum attempts exceeded"),
             store self challenge_id (set_outcome challenge remaining true false))
          else
            ((success, message),
             store self challenge_id
               (set_outcome challenge remaining
                  (is_completed challenge) (is_successful challenge)))
  end.

(** Consecutive calls on one challenge: the results in call order and the
    final state. *)
Fixpoint respond_all (self : t) (challenge_id : string) (calls : list (Response * Q))
  : list (bool * string) * t :=
  match calls with
  | [] => ([], self)
  | (response, now) :: rest =>
      let '(r, self') := process_challenge_response self challenge_id response now in
      let '(rs, self'') := respond_all self' challenge_id rest in
      (r :: rs, self'')
  end.

End ChallengeManager.

(** ** [SessionToken] and [SessionManager] *)
Module SessionManager.

Record SessionToken : Type := {
  token_id : string;
  user_id : string;
  session_id : string;
  created_at : Q;
  expires_at : Q;
  last_activity : Q;
  device_fingerprint : option string;
  ip_address : option string
}.

Definition is_valid (token : SessionToken) (now : Q) : bool := Py.lt now (expires_at token).

Definition is_expired (token : SessionToken) (now : Q) : bool := negb (is_valid token now).

Definition update_activity (token : SessionToken) (now : Q) : SessionToken :=
  {| token_id := token_id token;
     user_id := user_id token;
     session_id := session_id token;
     created_at := created_at token;
     expires_at := expires_at token;
     last_activity := now;
     device_fingerprint := device_fingerprint token;
     ip_address := ip_address token |}.

Record t : Type := {
  active_sessions : gmap string SessionToken;
  session_timeout : Q;
  idle_timeout : Q;
  max_concurrent : nat
}.

Definition init (config : Cfg.Config) : t :=
  {| active_sessions := ∅;
     session_timeout := Cfg.session config Cfg.timeout_minutes 30 * 60;
     idle_timeout := Cfg.session config Cfg.idle_timeout_minutes 15 * 60;
     max_concurrent := Cfg.session config Cfg.max_concurrent_sessions 3%nat |}.

Definition with_sessions (self : t) (sessions : gmap string SessionToken) : t :=
  {| active_sessions := sessions;
     session_timeout := session_timeout self;
     idle_timeout := idle_timeout self;
     max_concurrent := max_concurrent self |}.

Definition invalidate_session (self : t) (session_id : string) : bool * t :=
  match active_sessions self !! session_id with
  | Some _ => (true, with_sessions self (delete session_id (active_sessions self)))
  | None => (false, self)
  end.

(** [if a and b: if a != b: ...]: both values supplied (truthy) and different. *)
Definition mismatch (supplied stored : option string) : bool :=
  Py.truthy supplied && Py.truthy stored && negb (bool_decide (supplied = stored)).

(** [validate_session]; [t_exp], [t_idle] and [t_upd] are the clock readings
    of [is_expired], of the idle check and of [update_activity]. *)
Definition validate_session (self : t) (session_id : string)
    (device_fingerprint ip_address : option string) (t_exp t_idle t_upd : Q)
  : option SessionToken * t :=
  match active_sessions self !! session_id with
  | None => (None, self)
  | Some token =>
      if is_expired token t_exp then
        (None, snd (invalidate_session self session_id))
      else if Py.gt (t_idle - last_activity token) (idle_timeout self) then
        (None, snd (invalidate_session self session_id))
      else if mismatch device_fingerprint (SessionManager.device_fingerprint token) then
        (None, snd (invalidate_session self session_id))
      else
        let refreshed :=
          (Some (update_activity token t_upd),
           with_sessions self
             (<[session_id := update_activity token t_upd]> (active_sessions self))) in
        if mismatch ip_address (SessionManager.ip_address token) then
          refreshed (* pass *)
        else refreshed
  end.

End SessionManager.

(** ** [SecurityManager] *)
Inductive SecurityLevel : Type := SL_LOW | SL_MEDIUM | SL_HIGH | SL_CRITICAL.

Module SecurityManager.

Record SecurityEvent : Type := {
  event_type : string;
  event_severity : SecurityLevel;
  event_user_id : string;
  event_session_id : string
}.

Record t : Type := {
  session_manager : SessionManager.t;
  security_events : list SecurityEvent
}.

Definition init (config : Cfg.Config) : t :=
  {| session_manager := SessionManager.init config; security_events := [] |}.

Record assessment : Type := {
  security_level : SecurityLevel;
  risk_score : Q;
  requires_additional_auth : bool
}.

(** [_assess_session_security]; [now] is the clock reading of the age check. *)
Definition _assess_session_security (token : SessionManager.SessionToken)
    (device_fingerprint ip_address : option string) (now : Q) : assessment :=
  let '(risk1, level1) :=
    if SessionManager.mismatch device_fingerprint (SessionManager.device_fingerprint token)
    then (0.0 + 0.3, SL_MEDIUM) else (0.0, SL_LOW) in
  let risk2 :=
    if SessionManager.mismatch ip_address (SessionManager.ip_address token)
    then risk1 + 0.2 else risk1 in
  let session_age := now - SessionManager.created_at token in
  let risk3 := if Py.gt session_age 3600 then risk2 + 0.1 else risk2 in
  if Py.ge risk3 0.5 then
    {| security_level := SL_HIGH; risk_score := risk3; requires_additional_auth := true |}
  else if Py.ge risk3 0.3 then
    {| security_level := SL_MEDIUM; risk_score := risk3; requires_additional_auth := false |}
  else
    {| security_level := level1; risk_score := risk3; requires_additional_auth := false |}.

Record session_info : Type := {
  info_user_id : string;
  info_session_id : string;
  info_security_level : SecurityLevel;
  info_risk_score : Q;
  info_requires_additional_auth : bool
}.

Definition validate_session (self : t) (session_id : string)
    (device_fingerprint ip_address : option string) (t_exp t_idle t_upd t_age : Q)
  : (bool * option session_info) * t :=
  let '(token, sm) :=
    SessionManager.validate_session (session_manager self) session_id
      device_fingerprint ip_address t_exp t_idle t_upd in
  match token with
  | None =>
      ((false, None),
       {| session_manager := sm;
          security_events :=
            security_events self
            ++ [{| event_type := "session_validation_failed";
                   event_severity := SL_MEDIUM;
                   event_user_id := "unknown";
                   event_session_id := session_id |}] |})
  | Some token =>
      let security_context :=
        _assess_session_security token device_fingerprint ip_address t_age in
      ((true,
        Some {| info_user_id := SessionManager.user_id token;
                info_session_id := SessionManager.session_id token;
                info_security_level := security_level security_context;
                info_risk_score := risk_score security_context;
                info_requires_additional_auth :=
                  requires_additional_auth security_context |}),
       {| session_manager := sm; security_events := security_events self |})
  end.

End SecurityManager.

(** ** [BehavioralDataManager]: the session part

    The manager holds one behavioral session for the whole process.  The two
    collectors are their [is_active] flags; stopping a pynput listener is taken
    not to raise. *)
Module BehavioralDataManager.

Record BehaviorSession : Type := {
  session_id : string;
  user_id : string;
  start_time : Q;
  features_collected : nat;
  is_active : bool;
  confidence_score : Q
}.

Record BiometricFeatures : Type := {
  bf_user_id : string;
  bf_session_id : string;
  bf_timestamp : Q;
  keystroke_features : Features;
  mouse_features : Features;
  bf_confidence_score : Q
}.

Record t : Type := {
  current_session : option BehaviorSession;
  is_running : bool;
  keystroke_collector_active : bool;
  mouse_collector_active : bool
}.

Definition deactivate (s : BehaviorSession) : BehaviorSession :=
  {| session_id := session_id s;
     user_id := user_id s;
     start_time := start_time s;
     features_collected := features_collected s;
     is_active := false;
     confidence_score := confidence_score s |}.

(** [stop_session] takes no session id: it stops whatever session is current. *)
Definition stop_session (self : t) : bool * t :=
  match current_session self with
  | None => (false, self)
  | Some s =>
      (true,
       {| current_session := Some (deactivate s);
          is_running := false;
          keystroke_collector_active := false;
          mouse_collector_active := false |})
  end.

(** [get_current_features]: [None] without an active session; otherwise what
    the collectors and the activity monitor produce, [collected], which is
    outside this model and may raise. *)
Definition get_current_features (self : t) (collected : Outcome BiometricFeatures)
  : Outcome (option BiometricFeatures) :=
  match current_session self with
  | None => Returned None
  | Some s =>
      if negb (is_active s) then Returned None
      else match collected with
           | Returned features => Returned (Some features)
           | Raised e => Raised e
           end
  end.

End BehavioralDataManager.

(** ** [AuthenticationManager] *)
Module AuthenticationManager.

Record AuthenticationResult : Type := {
  success : bool;
  confidence : Q;
  user_id : string;
  session_id : string;
  decision : Decision;
  message : string
}.

(** An entry of [active_sessions]. *)
Record session_state : Type := {
  ss_user_id : string;
  start_time : Q;
  last_authentication : Q;
  authentication_count : nat;
  ss_device_fingerprint : option string;
  ss_ip_address : option string
}.

Record auth_stats : Type := {
  total_authentications : nat;
  successful_authentications : nat;
  challenged_authentications : nat;
  failed_authentications : nat;
  average_confidence : Q
}.

(** [feature_extractor] stands for [FeatureExtractor.extract_features], which
    catches its own exceptions and always returns a feature vector. *)
Record t : Type := {
  behavioral_manager : BehavioralDataManager.t;
  security_manager : SecurityManager.t;
  ml_manager : MLManager.t;
  feature_extractor :
    BehavioralDataManager.BiometricFeatures -> Q -> list Features -> Features;
  active_sessions : gmap string session_state;
  feature_history : gmap string (list Features);
  stats : auth_stats
}.

(** The optional [context] dict of a call. *)
Record Context : Type := {
  ctx_device_fingerprint : option string;
  ctx_ip_address : option string;
  ctx_context : option string
}.

(** The clock readings of one [authenticate_continuously] call, in call order. *)
Record Clock : Type := {
  t_exp : Q;
  t_idle : Q;
  t_upd : Q;
  t_age : Q;
  t_duration : Q;
  t_auth : Q
}.

Definition with_security (self : t) (sec : SecurityManager.t) : t :=
  {| behavioral_manager := behavioral_manager self;
     security_manager := sec;
     ml_manager := ml_manager self;
     feature_extractor := feature_extractor self;
     active_sessions := active_sessions self;
     feature_history := feature_history self;
     stats := stats self |}.

Definition _get_decision_message (d : Decision) : string :=
  match d with
  | Continue => "Authentication successful - continuing normal operation"
  | Monitor => "Authentication successful - enhanced monitoring enabled"
  | Challenge => "Additional authentication required"
  | Logout => "Authentication failed - session terminated"
  end.

(** [_update_session_state]: the history keeps its last 100 entries. *)
Definition _update_session_state (self : t) (session_id : string) (features : Features)
    (now : Q) : t :=
  match active_sessions self !! session_id with
  | None => self
  | Some s =>
      let s' := {| ss_user_id := ss_user_id s;
                   start_time := start_time s;
                   last_authentication := now;
                   authentication_count := S (authentication_count s);
                   ss_device_fingerprint := ss_device_fingerprint s;
                   ss_ip_address := ss_ip_address s |} in
      let history' :=
        match feature_history self !! session_id with
        | None => feature_history self
        | Some h =>
            let h' := h ++ [features] in
            <[session_id := drop (length h' - 100) h']> (feature_history self)
        end in
      {| behavioral_manager := behavioral_manager self;
         security_manager := security_manager self;
         ml_manager := ml_manager self;
         feature_extractor := feature_extractor self;
         active_sessions := <[session_id := s']> (active_sessions self);
         feature_history := history';
         stats := stats self |}
  end.

Definition _update_auth_stats (self : t) (analysis : MLManager.analysis) : t :=
  let st := stats self in
  let total := S (total_authentications st) in
  let d := MLManager.decision analysis in
  let st' :=
    {| total_authentications := total;
       successful_authentications :=
         match d with Continue => S (successful_authentications st)
                 | _ => successful_authentications st end;
       challenged_authentications :=
         match d with Challenge | Monitor => S (challenged_authentications st)
                 | _ => challenged_authentications st end;
       failed_authentications :=
         match d with Logout => S (failed_authentications st)
                 | _ => failed_authentications st end;
       average_confidence :=
         ((average_confidence st * (inject_Z (Z.of_nat total) - 1))
          + MLManager.combined_confidence analysis) / inject_Z (Z.of_nat total) |} in
  {| behavioral_manager := behavioral_manager self;
     security_manager := security_manager self;
     ml_manager := ml_manager self;
     feature_extractor := feature_extractor self;
     active_sessions := active_sessions self;
     feature_history := feature_history self;
     stats := st' |}.

(** The result of the outer [except Exception] handler. *)
Definition system_error (session_id : string) : AuthenticationResult :=
  {| success := false;
     confidence := 0.0;
     user_id := "unknown";
     session_id := session_id;
     decision := Logout;
     message := "Authentication system error" |}.

(** [authenticate_continuously].  [collected] is what the collectors deliver
    to [get_current_features].  The call into the adaptive response manager
    only fills the result's metadata and catches its own exceptions; metadata
    and callbacks are not part of the record below. *)
Definition authenticate_continuously (self : t) (session_id : string)
    (context : option Context) (clock : Clock)
    (collected : Outcome BehavioralDataManager.BiometricFeatures)
  : AuthenticationResult * t :=
  let '((session_valid, session_info), sec) :=
    SecurityManager.validate_session (security_manager self) session_id
      (context ≫= ctx_device_fingerprint) (context ≫= ctx_ip_address)
      (t_exp clock) (t_idle clock) (t_upd clock) (t_age clock) in
  let self1 := with_security self sec in
  match session_valid, session_info with
  | true, Some info =>
      let user_id := SecurityManager.info_user_id info in
      match BehavioralDataManager.get_current_features (behavioral_manager self1) collected with
      | Raised _ => (system_error session_id, self1)
      | Returned None =>
          ({| success := true;
              confidence := 0.5;
              user_id := user_id;
              session_id := session_id;
              decision := Monitor;
              message := "Insufficient behavioral data" |}, self1)
      | Returned (Some behavioral_features) =>
          match active_sessions self1 !! session_id with
          | None => (system_error session_id, self1) (* KeyError *)
          | Some s =>
              let session_duration := t_duration clock - start_time s in
              let features :=
                feature_extractor self1 behavioral_features session_duration
                  (default [] (feature_history self1 !! session_id)) in
              let ml_analysis :=
                MLManager.analyze_behavior (ml_manager self1) features
                  (default "default" (context ≫= ctx_context)) in
              let self2 := _update_session_state self1 session_id features (t_auth clock) in
              let self3 := _update_auth_stats self2 ml_analysis in
              let d := MLManager.decision ml_analysis in
              ({| success := match d with Continue | Monitor => true | _ => false end;
                  confidence := MLManager.combined_confidence ml_analysis;
                  user_id := user_id;
                  session_id := session_id;
                  decision := d;
                  message := _get_decision_message d |}, self3)
          end
      end
  | _, _ =>
      ({| success := false;
          confidence := 0.0;
          user_id := "unknown";
          session_id := session_id;
          decision := Logout;
          message := "Session validation failed" |}, self1)
  end.

(** [end_session]: nothing in the [try] block raises, so the result is
    [True]. *)
Definition end_session (self : t) (session_id : string) : bool * t :=
  let bm := snd (BehavioralDataManager.stop_session (behavioral_manager self)) in
  let sm := snd (SessionManager.invalidate_session
                   (SecurityManager.session_manager (security_manager self)) session_id) in
  (true,
   {| behavioral_manager := bm;
      security_manager :=
        {| SecurityManager.session_manager := sm;
           SecurityManager.security_events :=
             SecurityManager.security_events (security_manager self) |};
      ml_manager := ml_manager self;
      feature_extractor := feature_extractor self;
      active_sessions := delete session_id (active_sessions self);
      feature_history := delete session_id (feature_history self);
      stats := stats self |}).

End AuthenticationManager.

(** ** [ChallengeManager.cleanup_expired_challenges], and traces of calls *)
Module ChallengeSweep.

Import ChallengeManager.

(** [current_time > challenge.expires_at or challenge.is_completed] *)
Definition reclaimable (current_time : Q) (c : AuthChallenge) : bool :=
  Py.gt current_time (expires_at c) || is_completed c.

Definition cleanup_expired_challenges (self : t) (current_time : Q) : nat * t :=
  let expired_challenges :=
    (filter (fun kv : string * AuthChallenge => Is_true (reclaimable current_time (snd kv)))
            (map_to_list (active_challenges self))).*1 in
  (length expired_challenges, fold_left _cleanup_challenge expired_challenges self).

(** The calls a client can make on a challenge manager. *)
Inductive op : Type :=
  | Create (challenge_type user_id session_id uuid : string) (now1 now2 : Q)
  | Respond (challenge_id : string) (response : Response) (now : Q)
  | Cleanup (current_time : Q).

Definition step (self : t) (o : op) : t :=
  match o with
  | Create ty uid sid uuid now1 now2 => snd (create_challenge self ty uid sid uuid now1 now2)
  | Respond cid r now => snd (process_challenge_response self cid r now)
  | Cleanup now => snd (cleanup_expired_challenges self now)
  end.

Definition run (self : t) (ops : list op) : t := fold_left step ops self.

End ChallengeSweep.

(** ** [SessionManager.cleanup_expired_sessions]

    The comprehension reads the clock while it examines each session:
    [clock sid] gives the reading of [is_expired] and the reading of the idle
    test for session [sid]. *)
Module SessionSweep.

Import SessionManager.

Definition stale (self : t) (clock : string -> Q * Q) (kv : string * SessionToken) : bool :=
  is_expired (snd kv) (fst (clock (fst kv)))
  || Py.gt (snd (clock (fst kv)) - last_activity (snd kv)) (idle_timeout self).

Definition cleanup_expired_sessions (self : t) (clock : string -> Q * Q) : nat * t :=
  let expired_sessions :=
    (filter (fun kv : string * SessionToken => Is_true (stale self clock kv))
            (map_to_list (active_sessions self))).*1 in
  (length expired_sessions,
   fold_left (fun st session_id => snd (invalidate_session st session_id))
             expired_sessions self).

End SessionSweep.

(** ** [SecurityManager]: failed attempts and lock-out

    The part of the security manager's state that
    [record_authentication_failure] and [_is_user_locked_out] use. *)
Module FailedAttempts.

Record t : Type := {
  failed_attempts : gmap string (list Q);
  max_failed_attempts : Z;
  lockout_duration : Q;
  security_events : list SecurityManager.SecurityEvent
}.

Definition init (config : Cfg.Config) : t :=
  {| failed_attempts := ∅;
     max_failed_attempts := Cfg.challenge config Cfg.max_attempts 3%Z;
     lockout_duration := Cfg.challenge config Cfg.lockout_duration 300;
     security_events := [] |}.

(** [[t for t in ts if current_time - t < self.lockout_duration]] *)
Definition recent (self : t) (current_time : Q) (ts : list Q) : list Q :=
  List.filter (fun t0 => Py.lt (current_time - t0) (lockout_duration self)) ts.

Definition _is_user_locked_out (self : t) (user_id : string) (current_time : Q) : bool :=
  match failed_attempts self !! user_id with
  | None => false
  | Some ts =>
      (max_failed_attempts self <=? Z.of_nat (length (recent self current_time ts)))%Z
  end.

Definition log (self : t) (attempts : gmap string (list Q)) (event_type : string)
    (severity : SecurityLevel) (user_id : string) : t :=
  {| failed_attempts := attempts;
     max_failed_attempts := max_failed_attempts self;
     lockout_duration := lockout_duration self;
     security_events :=
       security_events self
       ++ [{| SecurityManager.event_type := event_type;
              SecurityManager.event_severity := severity;
              SecurityManager.event_user_id := user_id;
              SecurityManager.event_session_id := "unknown" |}] |}.

Definition record_authentication_failure (self : t) (user_id reason : string)
    (current_time : Q) : bool * t :=
  let before := default [] (failed_attempts self !! user_id) in
  let kept := recent self current_time (before ++ [current_time]) in
  let attempts := <[user_id := kept]> (failed_attempts self) in
  if (max_failed_attempts self <=? Z.of_nat (length kept))%Z then
    (true, log self attempts "user_locked_out" SL_HIGH user_id)
  else
    (false, log self attempts "authentication_failed" SL_MEDIUM user_id).

(** Failures of one user at the given times, in order: the results and the
    final state. *)
Fixpoint record_all (self : t) (user_id reason : string) (times : list Q)
  : list bool * t :=
  match times with
  | [] => ([], self)
  | now :: rest =>
      let '(r, self') := record_authentication_failure self user_id reason now in
      let '(rs, self'') := record_all self' user_id reason rest in
      (r :: rs, self'')
  end.

End FailedAttempts.

(** ** [AdaptiveResponseManager] *)
Definition action_value (a : ResponseAction) : string :=
  match a with
  | CONTINUE => "continue"
  | MONITOR => "monitor"
  | CHALLENGE_PIN => "challenge_pin"
  | CHALLENGE_BIOMETRIC => "challenge_biometric"
  | CHALLENGE_SMS => "challenge_sms"
  | RESTRICT_FUNCTIONS => "restrict_functions"
  | LOCK_SESSION => "lock_session"
  | LOGOUT => "logout"
  | ALERT_ADMIN => "alert_admin"
  end.

Module AdaptiveResponseManager.

(** The ['data'] entry of an action result. *)
Inductive data : Type :=
  | NoData
  | ChallengeId (challenge_id : option string)
  | RestrictedFunctions (functions : list string)
  | ActionRequired (action : string)
  | AlertType (alert_type : string).

Record action_result : Type := {
  action : string;
  success : bool;
  message : string;
  result_data : data
}.

Record t : Type := {
  challenge_manager : ChallengeManager.t;
  active_restrictions : gmap string (list string);
  alert_history : list ResponseEngine.alert
}.

(** What one challenge creation draws from the environment. *)
Record fresh : Type := {
  uuid : string;
  now1 : Q;
  now2 : Q
}.

Definition with_challenges (self : t) (cm : ChallengeManager.t) : t :=
  {| challenge_manager := cm;
     active_restrictions := active_restrictions self;
     alert_history := alert_history self |}.

Definition restricted_functions : list string :=
  ["financial_transactions"; "data_export"; "admin_functions"].

(** [_execute_single_action] with the wrapper's [result.get] defaults
    applied; [user_id] and [session_id] are the alert's. *)
Definition _execute_single_action (self : t) (a : ResponseAction)
    (user_id session_id : string) (env : fresh) : action_result * t :=
  match a with
  | CONTINUE =>
      ({| action := action_value a; success := true;
          message := "Continuing normal operation"; result_data := NoData |}, self)
  | MONITOR =>
      ({| action := action_value a; success := true;
          message := "Increased monitoring enabled"; result_data := NoData |}, self)
  | CHALLENGE_PIN =>
      let '(challenge, cm) :=
        ChallengeManager.create_challenge (challenge_manager self) "pin" user_id session_id
          (uuid env) (now1 env) (now2 env) in
      ({| action := action_value a;
          success := bool_decide (is_Some challenge);
          message := if bool_decide (is_Some challenge) then "PIN challenge created"
                     else "Failed to create challenge";
          result_data := ChallengeId (ChallengeManager.challenge_id <$> challenge) |},
       with_challenges self cm)
  | CHALLENGE_BIOMETRIC =>
      let '(challenge, cm) :=
        ChallengeManager.create_challenge (challenge_manager self) "biometric" user_id
          session_id (uuid env) (now1 env) (now2 env) in
      ({| action := action_value a;
          success := bool_decide (is_Some challenge);
          message := if bool_decide (is_Some challenge) then "Biometric challenge created"
                     else "Failed to create challenge";
          result_data := ChallengeId (ChallengeManager.challenge_id <$> challenge) |},
       with_challenges self cm)
  | RESTRICT_FUNCTIONS =>
      ({| action := action_value a; success := true;
          message := "Functions restricted";
          result_data := RestrictedFunctions restricted_functions |},
       {| challenge_manager := challenge_manager self;
          active_restrictions :=
            <[session_id := restricted_functions]> (active_restrictions self);
          alert_history := alert_history self |})
  | LOGOUT =>
      ({| action := action_value a; success := true;
          message := "User logout initiated"; result_data := ActionRequired "logout" |}, self)
  | ALERT_ADMIN =>
      ({| action := action_value a; success := true;
          message := "Administrator alert sent";
          result_data := AlertType "security_incident" |}, self)
  | _ =>
      ({| action := action_value a; success := false;
          message := String.append "Unknown action: " (action_value a);
          result_data := NoData |}, self)
  end.

(** [_execute_response_actions]; the [i]th action draws [env i]. *)
Fixpoint execute_from (self : t) (actions : list ResponseAction)
    (user_id session_id : string) (env : nat -> fresh) (i : nat)
  : list action_result * t :=
  match actions with
  | [] => ([], self)
  | a :: rest =>
      let '(r, self') := _execute_single_action self a user_id session_id (env i) in
      let '(rs, self'') := execute_from self' rest user_id session_id env (S i) in
      (r :: rs, self'')
  end.

Definition _execute_response_actions (self : t) (alert : ResponseEngine.alert)
    (user_id session_id : string) (env : nat -> fresh) : list action_result * t :=
  execute_from self (ResponseEngine.recommended_actions alert) user_id session_id env 0.

Definition user_action_responses : list string :=
  ["PIN challenge created"; "Biometric challenge created";
   "SMS challenge created"; "User logout initiated"].

Definition _requires_user_action (response_results : list action_result) : bool :=
  existsb (fun result => Py.str_in (message result) user_action_responses) response_results.

Record response : Type := {
  alert : ResponseEngine.alert;
  actions_taken : list action_result;
  requires_user_action : bool
}.

Definition process_behavioral_analysis (self : t) (behavioral_analysis : MLManager.analysis)
    (security_context : SecurityContext) (user_id session_id : string) (env : nat -> fresh)
  : response * t :=
  let alert := ResponseEngine.analyze_risk behavioral_analysis security_context in
  let self1 :=
    {| challenge_manager := challenge_manager self;
       active_restrictions := active_restrictions self;
       alert_history := alert_history self ++ [alert] |} in
  let '(response_results, self2) :=
    _execute_response_actions self1 alert user_id session_id env in
  ({| alert := alert;
      actions_taken := response_results;
      requires_user_action := _requires_user_action response_results |}, self2).

End AdaptiveResponseManager.

(** ** [BehavioralDataManager.start_session] *)
Module BehavioralStart.

Import BehavioralDataManager.

(** A collector's [start_collection]: nothing happens when it is already
    active; otherwise it is marked active and its listener is set up, which
    raises when pynput is missing ([setup]). *)
Definition start_collection (active : bool) (setup : Outcome unit) : Outcome unit * bool :=
  if active then (Returned tt, active) else (setup, true).

(** [start_session]; [keystroke_setup] and [mouse_setup] are the outcomes of
    the two listener set-ups, [baseline_started] the answer of
    [start_baseline_collection]. *)
Definition start_session (self : t) (user_id session_id : string) (now : Q)
    (keystroke_setup mouse_setup : Outcome unit) (baseline_started : bool) : bool * t :=
  let already_active :=
    match current_session self with
    | Some s => is_active s
    | None => false
    end in
  if already_active then (false, self)
  else
    let s := {| BehavioralDataManager.session_id := session_id;
                BehavioralDataManager.user_id := user_id;
                start_time := now;
                features_collected := 0;
                is_active := true;
                confidence_score := 0.0 |} in
    let '(k, k_active) := start_collection (keystroke_collector_active self) keystroke_setup in
    match k with
    | Raised _ =>
        (false,
         {| current_session := Some s; is_running := true;
            keystroke_collector_active := k_active;
            mouse_collector_active := mouse_collector_active self |})
    | Returned _ =>
        let '(m, m_active) := start_collection (mouse_collector_active self) mouse_setup in
        let started :=
          {| current_session := Some s; is_running := true;
             keystroke_collector_active := k_active;
             mouse_collector_active := m_active |} in
        match m with
        | Raised _ => (false, started)
        | Returned _ => if baseline_started then (true, started) else (false, started)
        end
    end.

End BehavioralStart.

(* ================================================================== *)
(** * Properties *)
(* ================================================================== *)

(** ** Python [min]/[max] and comparisons on rationals *)
Section PyFacts.

Lemma ge_true (a b : Q) : Py.ge a b = true <-> b <= a.
Proof. unfold Py.ge. apply Qle_bool_iff. Qed.

Lemma ge_false (a b : Q) : Py.ge a b = false <-> a < b.
Proof.
  unfold Py.ge. split; intros H.
  - apply Qnot_le_lt. intros Hle. apply Qle_bool_iff in Hle. congruence.
  - destruct (Qle_bool b a) eqn:E; [|reflexivity].
    apply Qle_bool_iff in E. lra.
Qed.

Lemma lt_true (a b : Q) : Py.lt a b = true <-> a < b.
Proof.
  unfold Py.lt. rewrite negb_true_iff. apply (ge_false a b).
Qed.

Lemma lt_false (a b : Q) : Py.lt a b = false <-> b <= a.
Proof.
  unfold Py.lt. rewrite negb_false_iff. apply (ge_true a b).
Qed.

Lemma gt_true (a b : Q) : Py.gt a b = true <-> b < a.
Proof.
  unfold Py.gt. rewrite negb_true_iff. apply (ge_false b a).
Qed.

Lemma max_lower (a b : Q) : a <= Py.max a b.
Proof. unfold Py.max. destruct (Qlt_le_dec a b); lra. Qed.

Lemma max_upper (a b hi : Q) : a <= hi -> b <= hi -> Py.max a b <= hi.
Proof. unfold Py.max. destruct (Qlt_le_dec a b); lra. Qed.

Lemma min_upper (a b : Q) : Py.min a b <= a.
Proof. unfold Py.min. destruct (Qlt_le_dec b a); lra. Qed.

(** [max(lo, min(hi, x))] is a clamp whenever [lo <= hi]. *)
Lemma clamp_range (lo hi x : Q) :
  lo <= hi -> lo <= Py.max lo (Py.min hi x) <= hi.
Proof.
  intros Hlh. split; [apply max_lower|].
  apply max_upper; [assumption | apply min_upper].
Qed.

Lemma clamp_inside (lo hi x : Q) :
  lo <= x <= hi -> Py.max lo (Py.min hi x) == x.
Proof.
  intros [Hl Hh]. unfold Py.max, Py.min.
  destruct (Qlt_le_dec x hi); destruct (Qlt_le_dec lo _); lra.
Qed.

Lemma clamp_compat (lo hi x y : Q) :
  x == y -> Py.max lo (Py.min hi x) == Py.max lo (Py.min hi y).
Proof.
  intros Hxy. unfold Py.max, Py.min.
  destruct (Qlt_le_dec x hi); destruct (Qlt_le_dec y hi);
    repeat match goal with |- context [Qlt_le_dec ?a ?b] => destruct (Qlt_le_dec a b) end;
    lra.
Qed.

End PyFacts.

(** ** Adaptive thresholds *)
Section Thresholds.

Import AdaptiveThresholds.

(** Every stored adjustment lies in [-0.3, 0.3]. *)
Definition adjustments_bounded (self : t) : Prop :=
  forall (context : string) (a : Q),
    context_adjustments self !! context = Some a -> -0.3 <= a <= 0.3.

Lemma init_bounded (config : Cfg.Config) : adjustments_bounded (init config).
Proof. intros context a H. unfold init in H. simpl in H. by rewrite lookup_empty in H. Qed.

Lemma adjust_threshold_bounded (self : t) (context feedback : string) (score : Q) :
  adjustments_bounded self ->
  adjustments_bounded (adjust_threshold self context feedback score).
Proof.
  intros Hinv ctx a. unfold adjust_threshold. simpl.
  destruct (decide (context = ctx)) as [->|Hne].
  - rewrite lookup_insert_eq. intros [= <-]. apply clamp_range. lra.
  - rewrite lookup_insert_ne by assumption. apply Hinv.
Qed.

Lemma run_bounded (cs : list call) (self : t) :
  adjustments_bounded self -> adjustments_bounded (run self cs).
Proof.
  revert self. induction cs as [|c cs IH]; intros self Hinv; [exact Hinv|].
  simpl. apply IH. apply adjust_threshold_bounded, Hinv.
Qed.

Lemma bounded_lookup (self : t) (context : string) :
  adjustments_bounded self ->
  -0.3 <= default 0 (context_adjustments self !! context) <= 0.3.
Proof.
  intros Hinv. destruct (context_adjustments self !! context) as [a|] eqn:E; simpl.
  - eapply Hinv, E.
  - lra.
Qed.

Lemma get_threshold_range (self : t) (level context : string) :
  0.1 <= get_threshold self level context <= 0.95.
Proof. unfold get_threshold. apply clamp_range. lra. Qed.

(** Feedback other than the two recognised strings re-clamps the stored
    adjustment and changes nothing else. *)
Lemma adjust_other_feedback_lookup (self : t) (context feedback : string) (score : Q) (ctx : string) :
  adjustments_bounded self ->
  feedback <> "false_positive" -> feedback <> "false_negative" ->
  default 0 (context_adjustments (adjust_threshold self context feedback score) !! ctx)
  == default 0 (context_adjustments self !! ctx).
Proof.
  intros Hinv Hfp Hfn. unfold adjust_threshold. simpl.
  apply String.eqb_neq in Hfp, Hfn. rewrite Hfp, Hfn.
  destruct (decide (context = ctx)) as [->|Hne].
  - rewrite lookup_insert_eq. simpl. apply clamp_inside.
    apply bounded_lookup, Hinv.
  - rewrite lookup_insert_ne by assumption. reflexivity.
Qed.

Lemma get_threshold_compat (s1 s2 : t) (level c1 c2 : string) :
  thresholds s1 = thresholds s2 ->
  default 0 (context_adjustments s1 !! c1) == default 0 (context_adjustments s2 !! c2) ->
  get_threshold s1 level c1 == get_threshold s2 level c2.
Proof.
  intros Ht Ha. unfold get_threshold. rewrite Ht.
  apply clamp_compat. rewrite Ha. reflexivity.
Qed.

(** C8. After any finite sequence of [adjust_threshold] calls on a freshly
    constructed store (any contexts, any feedback strings, any scores, in any
    order) the accumulated adjustment of every context lies in [-0.3, +0.3]
    and every value returned by [get_threshold] lies in [0.1, 0.95].  The
    scores need not even be in [0, 1]. *)
Theorem adjustment_stays_bounded (config : Cfg.Config) (cs : list call) (level context : string) :
  -0.3 <= default 0 (context_adjustments (run (init config) cs) !! context) <= 0.3
  /\ 0.1 <= get_threshold (run (init config) cs) level context <= 0.95.
Proof.
  split.
  - apply bounded_lookup, run_bounded, init_bounded.
  - apply get_threshold_range.
Qed.

(** C10. On a store reached from construction by feedback calls, a call of
    [adjust_threshold] whose feedback is neither ['false_positive'] nor
    ['false_negative'] leaves every effective threshold as it was: for every
    level and every context [get_threshold] returns the same value before
    and after. *)
Theorem unknown_feedback_keeps_thresholds
    (config : Cfg.Config) (cs : list call) (context feedback : string) (score : Q)
    (level ctx : string) :
  feedback <> "false_positive" ->
  feedback <> "false_negative" ->
  get_threshold (adjust_threshold (run (init config) cs) context feedback score) level ctx
  == get_threshold (run (init config) cs) level ctx.
Proof.
  intros Hfp Hfn. apply get_threshold_compat; [reflexivity|].
  apply adjust_other_feedback_lookup; try assumption.
  apply run_bounded, init_bounded.
Qed.

End Thresholds.

(** ** Construction of the threshold store *)
Section Construction.

Import AdaptiveThresholds.

(** A configuration whose base values violate the ordering: low = 0.8 is
    above medium = 0.5. *)
Definition misordered_config : Cfg.Config :=
  {| Cfg.authentication :=
       Some {| Cfg.confidence_levels :=
                 Some {| Cfg.high := Some 0.9; Cfg.medium := Some 0.5; Cfg.low := Some 0.8 |};
               Cfg.challenges := None |};
     Cfg.security_session := None |}.

Lemma construct_always_returns (config : Cfg.Config) :
  construct config = Returned (init config).
Proof. reflexivity. Qed.

Lemma init_stores_levels (config : Cfg.Config) :
  thresholds (init config) !! "high_confidence" = Some (Cfg.level config Cfg.high 0.9)
  /\ thresholds (init config) !! "medium_confidence" = Some (Cfg.level config Cfg.medium 0.7)
  /\ thresholds (init config) !! "low_confidence" = Some (Cfg.level config Cfg.low 0.5).
Proof.
  unfold init. simpl. split; [|split].
  - apply lookup_insert_eq.
  - rewrite lookup_insert_ne by discriminate. apply lookup_insert_eq.
  - rewrite lookup_insert_ne by discriminate.
    rewrite lookup_insert_ne by discriminate. apply lookup_insert_eq.
Qed.

(** C4 (the code at the failing input).  [ConfigManager.validate_config]
    reports the ordering error for [misordered_config], yet
    [AdaptiveThresholds(config)] returns a store for it, holding low = 0.8 above
    medium = 0.5 as given, and serves a 'low' threshold above the 'medium' one. *)
Theorem misordered_config_is_constructed :
  ConfigManager.validate_thresholds misordered_config = [ConfigManager.ordering_error]
  /\ construct misordered_config = Returned (init misordered_config)
  /\ thresholds (init misordered_config) !! "low_confidence" = Some 0.8
  /\ thresholds (init misordered_config) !! "medium_confidence" = Some 0.5
  /\ get_threshold (init misordered_config) "medium_confidence" "default"
     < get_threshold (init misordered_config) "low_confidence" "default".
Proof.
  split; [reflexivity|]. split; [reflexivity|].
  destruct (init_stores_levels misordered_config) as (_ & Hm & Hl).
  split; [exact Hl|]. split; [exact Hm|].
  unfold get_threshold. rewrite Hm, Hl. vm_compute. reflexivity.
Qed.

End Construction.

(** ** The decision cascade *)
Section DecisionCascade.

Import MLManager.

Lemma determine_continue (h m l c : Q) :
  fst (determine h m l c) = Continue <-> h <= c.
Proof.
  unfold determine. destruct (Py.ge c h) eqn:Eh.
  - apply ge_true in Eh. simpl. tauto.
  - apply ge_false in Eh.
    destruct (Py.ge c m); [|destruct (Py.ge c l)]; simpl;
      (split; [discriminate | lra]).
Qed.

Lemma determine_monotone (h m l c1 c2 : Q) :
  c1 <= c2 ->
  (trust (fst (determine h m l c1)) <= trust (fst (determine h m l c2)))%nat.
Proof.
  intros H12. unfold determine.
  destruct (Py.ge c1 h) eqn:E1h; try apply ge_true in E1h; try apply ge_false in E1h;
  destruct (Py.ge c1 m) eqn:E1m; try apply ge_true in E1m; try apply ge_false in E1m;
  destruct (Py.ge c1 l) eqn:E1l; try apply ge_true in E1l; try apply ge_false in E1l;
  destruct (Py.ge c2 h) eqn:E2h; try apply ge_true in E2h; try apply ge_false in E2h;
  destruct (Py.ge c2 m) eqn:E2m; try apply ge_true in E2m; try apply ge_false in E2m;
  destruct (Py.ge c2 l) eqn:E2l; try apply ge_true in E2l; try apply ge_false in E2l;
  simpl; try lia; exfalso; lra.
Qed.

(** C6. For every triple of effective thresholds, ordered or not, the
    decision is monotone in the combined confidence: if [c1 <= c2] (both in
    [0, 1]) the decision at [c1] is never a strictly higher trust level than the
    decision at [c2], for the order continue > monitor > challenge > logout. *)
Theorem decision_monotone (h m l c1 c2 : Q) :
  0 <= c1 -> c1 <= c2 -> c2 <= 1 ->
  (trust (fst (determine h m l c1)) <= trust (fst (determine h m l c2)))%nat.
Proof.
  intros _ H12 _. apply determine_monotone, H12.
Qed.

Lemma decision_monotone_witness :
  (trust (fst (determine 0.5 0.9 0.7 0.6)) <= trust (fst (determine 0.5 0.9 0.7 0.8)))%nat.
Proof.
  apply (decision_monotone 0.5 0.9 0.7 0.6 0.8); vm_compute; discriminate.
Defined.

(** The same through [analyze_behavior]: for one manager state and context,
    a larger combined confidence never gives a less trusted decision. *)
Lemma analyze_behavior_monotone (self : MLManager.t) (f1 f2 : Features) (context : string) :
  combined_confidence (analyze_behavior self f1 context)
    <= combined_confidence (analyze_behavior self f2 context) ->
  (trust (decision (analyze_behavior self f1 context))
   <= trust (decision (analyze_behavior self f2 context)))%nat.
Proof.
  intros H12. exact (determine_monotone _ _ _ _ _ H12).
Qed.

End DecisionCascade.

(** ** The scenario authConfidence = 0.6, anomalyScore = 0.6 *)
Section Scenario.

Import MLManager ResponseEngine.

(** No ['authentication'] section: every threshold takes its default. *)
Definition default_config : Cfg.Config :=
  {| Cfg.authentication := None; Cfg.security_session := None |}.

(** A trained model answering the same score for every input. *)
Definition constant_model (q : Q) : Model :=
  {| is_trained := true; trained_score := fun _ => Returned q |}.

Lemma gt_false (a b : Q) : Py.gt a b = false <-> a <= b.
Proof. unfold Py.gt. rewrite negb_false_iff. apply (ge_true b a). Qed.

Lemma default_thresholds (context : string) :
  let t := AdaptiveThresholds.init default_config in
  AdaptiveThresholds.get_threshold t "high_confidence" context == 0.9
  /\ AdaptiveThresholds.get_threshold t "medium_confidence" context == 0.7
  /\ AdaptiveThresholds.get_threshold t "low_confidence" context == 0.5.
Proof.
  simpl. destruct (init_stores_levels default_config) as (Hh & Hm & Hl).
  unfold AdaptiveThresholds.get_threshold.
  rewrite Hh, Hm, Hl.
  replace (AdaptiveThresholds.context_adjustments (AdaptiveThresholds.init default_config) !! context)
    with (@None Q) by (symmetry; apply lookup_empty).
  repeat split; vm_compute; reflexivity.
Qed.

(** C5 (amended).  With the default thresholds 0.9 / 0.7 / 0.5, no context
    adjustment and no contextual risk signal, a classifier confidence of 0.6
    and an anomaly score of 0.6 fuse to (0.6 + (1 - 0.6)) / 2 = 0.5; the
    decision is 'challenge' and the recommended actions are the PIN challenge
    followed by monitoring. *)
Theorem scenario_challenge
    (classifier detector : Model) (features : Features) (context : string) :
  fst (BehaviorClassifier.predict classifier features) == 0.6 ->
  fst (AnomalyDetector.predict detector features) == 0.6 ->
  let a := analyze_behavior (MLManager.init default_config classifier detector)
             features context in
  combined_confidence a == 0.5
  /\ decision a = Challenge
  /\ recommended_actions (analyze_risk a no_signals) = [CHALLENGE_PIN; MONITOR].
Proof.
  intros Hauth Hanom.
  destruct (default_thresholds context) as (Hh & Hm & Hl).
  unfold analyze_risk, analyze_behavior, MLManager.init in *. simpl in *.
  set (auth := fst (BehaviorClassifier.predict classifier features)) in *.
  set (anom := fst (AnomalyDetector.predict detector features)) in *.
  set (h := AdaptiveThresholds.get_threshold _ "high_confidence" context) in *.
  set (m := AdaptiveThresholds.get_threshold _ "medium_confidence" context) in *.
  set (l := AdaptiveThresholds.get_threshold _ "low_confidence" context) in *.
  set (c := (auth + (1 - anom)) / 2).
  assert (Hc : c == 0.5) by (unfold c; rewrite Hauth, Hanom; reflexivity).
  clearbody c h m l auth anom.
  assert (Dh : Py.ge c h = false) by (apply ge_false; lra).
  assert (Dm : Py.ge c m = false) by (apply ge_false; lra).
  assert (Dl : Py.ge c l = true) by (apply ge_true; lra).
  unfold determine. rewrite Dh, Dm, Dl. simpl.
  split; [exact Hc|]. split; [reflexivity|].
  unfold identify_risk_factors, _calculate_severity, base_severity, adjust_for_anomaly.
  assert (L3 : Py.lt c 0.3 = false) by (apply lt_false; lra).
  assert (L5 : Py.lt c 0.5 = false) by (apply lt_false; lra).
  assert (L2 : Py.lt c 0.2 = false) by (apply lt_false; lra).
  assert (L4 : Py.lt c 0.4 = false) by (apply lt_false; lra).
  assert (L6 : Py.lt c 0.6 = true) by (apply lt_true; lra).
  assert (G7 : Py.gt anom 0.7 = false) by (apply gt_false; lra).
  assert (G8 : Py.gt anom 0.8 = false) by (apply gt_false; lra).
  rewrite L3, L5, L2, L4, L6, G7, G8. reflexivity.
Qed.

Lemma scenario_challenge_witness :
  let a := analyze_behavior
             (MLManager.init default_config (constant_model 0.6) (constant_model 0.6))
             ∅ "default" in
  combined_confidence a == 0.5
  /\ decision a = Challenge
  /\ recommended_actions (analyze_risk a no_signals) = [CHALLENGE_PIN; MONITOR].
Proof.
  apply (scenario_challenge (constant_model 0.6) (constant_model 0.6) ∅ "default");
    reflexivity.
Defined.

(** C5 (as stated, refuted).  In that scenario the combined confidence is
    not 0.40. *)
Lemma scenario_combined_is_not_040 :
  ~ (combined_confidence
       (analyze_behavior
          (MLManager.init default_config (constant_model 0.6) (constant_model 0.6))
          ∅ "default") == 0.40).
Proof. vm_compute. discriminate. Qed.

End Scenario.

(** ** Severity *)
Section Severity.

Import ResponseEngine.

Lemma adjust_for_anomaly_escalates (anomaly_score : Q) (s : AlertSeverity) :
  (severity_rank s <= severity_rank (adjust_for_anomaly anomaly_score s))%nat.
Proof.
  unfold adjust_for_anomaly. destruct (Py.gt anomaly_score 0.8); destruct s; simpl; lia.
Qed.

Lemma adjust_for_risk_factors_escalates (risk_factors : list string) (s : AlertSeverity) :
  (severity_rank s <= severity_rank (adjust_for_risk_factors risk_factors s))%nat.
Proof.
  unfold adjust_for_risk_factors.
  destruct (has_critical_factor risk_factors); destruct s; simpl; lia.
Qed.

(** [has_critical_factor] is the membership test the claim words. *)
Lemma has_critical_factor_spec (risk_factors : list string) :
  has_critical_factor risk_factors = true
  <-> "device_fingerprint_mismatch" ∈ risk_factors
      \/ "very_low_behavioral_confidence" ∈ risk_factors.
Proof.
  assert (Hin : forall x, Py.str_in x risk_factors = true <-> x ∈ risk_factors).
  { intros x. unfold Py.str_in. rewrite existsb_exists. split.
    - intros (y & Hy & Heq). apply String.eqb_eq in Heq. subst y.
      by apply list_elem_of_In.
    - intros Hx. exists x. split; [by apply list_elem_of_In | apply String.eqb_refl]. }
  unfold has_critical_factor, critical_factors. simpl.
  rewrite orb_false_r, orb_true_iff, !Hin. reflexivity.
Qed.

(** C7. For every confidence, anomaly score and list of risk factors, the
    two rules applied after the base severity only escalate: the anomaly rule
    (score > 0.8) turns low and medium into high and leaves the rest; with a
    critical factor present the result is at least high, and critical stays
    critical; the final severity is never below the base severity. *)
Theorem severity_only_escalates (confidence anomaly_score : Q) (risk_factors : list string) :
  let base := base_severity confidence in
  let after_anomaly := adjust_for_anomaly anomaly_score base in
  let final := _calculate_severity confidence anomaly_score risk_factors in
  final = adjust_for_risk_factors risk_factors after_anomaly
  /\ (severity_rank base <= severity_rank after_anomaly)%nat
  /\ (severity_rank after_anomaly <= severity_rank final)%nat
  /\ (severity_rank base <= severity_rank final)%nat
  /\ (0.8 < anomaly_score -> base = LOW \/ base = MEDIUM -> after_anomaly = HIGH)
  /\ ("device_fingerprint_mismatch" ∈ risk_factors
      \/ "very_low_behavioral_confidence" ∈ risk_factors ->
      (severity_rank HIGH <= severity_rank final)%nat)
  /\ (base = CRITICAL -> final = CRITICAL).
Proof.
  simpl. unfold _calculate_severity.
  pose proof (adjust_for_anomaly_escalates anomaly_score (base_severity confidence)) as H1.
  pose proof (adjust_for_risk_factors_escalates risk_factors
                (adjust_for_anomaly anomaly_score (base_severity confidence))) as H2.
  split; [reflexivity|]. split; [exact H1|]. split; [exact H2|]. split; [lia|].
  split; [|split].
  - intros Ha Hb. apply gt_true in Ha. unfold adjust_for_anomaly. rewrite Ha.
    destruct Hb as [-> | ->]; reflexivity.
  - intros Hf. apply has_critical_factor_spec in Hf.
    unfold adjust_for_risk_factors. rewrite Hf.
    destruct (adjust_for_anomaly _ _); simpl; lia.
  - intros Hc. rewrite Hc. unfold adjust_for_anomaly, adjust_for_risk_factors.
    destruct (Py.gt anomaly_score 0.8); destruct (has_critical_factor risk_factors);
      reflexivity.
Qed.

End Severity.

(** ** Threshold feedback: a concrete instance *)
Section ThresholdInstance.

Import AdaptiveThresholds.

Lemma unknown_feedback_keeps_thresholds_witness :
  get_threshold
    (adjust_threshold
       (run (init default_config)
            [{| call_context := "login"; call_feedback := "false_negative"; call_score := 0.2 |}])
       "login" "true_positive" 0.9)
    "low_confidence" "login"
  == get_threshold
       (run (init default_config)
            [{| call_context := "login"; call_feedback := "false_negative"; call_score := 0.2 |}])
       "low_confidence" "login".
Proof.
  apply (unknown_feedback_keeps_thresholds default_config
           [{| call_context := "login"; call_feedback := "false_negative"; call_score := 0.2 |}]
           "login" "true_positive" 0.9 "low_confidence" "login"); discriminate.
Defined.

End ThresholdInstance.

(** ** Challenge attempts *)
Section ChallengeAttempts.

Import ChallengeManager.

(** A call that is made before expiry and whose response the type-specific
    validator rejects. *)
Definition failing (c0 : AuthChallenge) (call : Response * Q) : Prop :=
  snd call <= expires_at c0 /\ fst (_validate_challenge_response c0 (fst call)) = false.

Lemma validate_ignores_outcome (c0 : AuthChallenge) (n : Z) (b1 b2 : bool) (r : Response) :
  _validate_challenge_response (set_outcome c0 n b1 b2) r = _validate_challenge_response c0 r.
Proof. reflexivity. Qed.

(** One rejected response on a pending challenge with [n] attempts left. *)
Lemma failing_step (self : t) (cid : string) (c0 : AuthChallenge) (n : Z) (call : Response * Q) :
  active_challenges self !! cid = Some (set_outcome c0 n false false) ->
  failing c0 call ->
  process_challenge_response self cid (fst call) (snd call) =
    if (n - 1 <=? 0)%Z then
      ((false, "Maximum attempts exceeded"),
       store self cid (set_outcome c0 (n - 1) true false))
    else
      ((false, snd (_validate_challenge_response c0 (fst call))),
       store self cid (set_outcome c0 (n - 1) false false)).
Proof.
  intros Hlook [Htime Hfail]. unfold process_challenge_response. rewrite Hlook.
  apply gt_false in Htime. simpl expires_at. rewrite Htime. simpl is_completed.
  rewrite validate_ignores_outcome.
  destruct (_validate_challenge_response c0 (fst call)) as [ok msg] eqn:E.
  simpl in Hfail. subst ok. simpl. destruct (n - 1 <=? 0)%Z; reflexivity.
Qed.

Lemma store_lookup (self : t) (cid : string) (c : AuthChallenge) :
  active_challenges (store self cid c) !! cid = Some c.
Proof. unfold store. simpl. apply lookup_insert_eq. Qed.

(** [k] rejected responses, fewer than the attempts left: still pending. *)
Lemma failing_run (c0 : AuthChallenge) (cid : string) (calls : list (Response * Q)) :
  forall (self : t) (n : Z),
    active_challenges self !! cid = Some (set_outcome c0 n false false) ->
    Forall (failing c0) calls ->
    (Z.of_nat (length calls) < n)%Z ->
    active_challenges (snd (respond_all self cid calls)) !! cid
    = Some (set_outcome c0 (n - Z.of_nat (length calls)) false false).
Proof.
  induction calls as [|[r now] rest IH]; intros self n Hlook Hall Hlen.
  - simpl. rewrite Hlook. f_equal. f_equal. lia.
  - inversion Hall as [|? ? Hhd Htl]; subst.
    simpl respond_all.
    pose proof (failing_step self cid c0 n (r, now) Hlook Hhd) as Hstep.
    simpl fst in Hstep. simpl snd in Hstep. rewrite Hstep.
    simpl length in Hlen.
    destruct (n - 1 <=? 0)%Z eqn:E; [apply Z.leb_le in E; lia|].
    specialize (IH (store self cid (set_outcome c0 (n - 1) false false)) (n - 1)%Z
                   (store_lookup _ _ _) Htl ltac:(lia)).
    destruct (respond_all _ cid rest) as [rs self''] eqn:Er. simpl in *.
    rewrite IH. f_equal. f_equal. lia.
Qed.

(** A completed challenge replays its stored outcome and is left as it is. *)
Lemma completed_replay (self : t) (cid : string) (c : AuthChallenge) (r : Response) (now : Q) :
  active_challenges self !! cid = Some c ->
  is_completed c = true ->
  now <= expires_at c ->
  process_challenge_response self cid r now
  = ((is_successful c, "Challenge already completed"), self).
Proof.
  intros Hlook Hdone Htime. unfold process_challenge_response. rewrite Hlook.
  apply gt_false in Htime. rewrite Htime, Hdone. reflexivity.
Qed.

(** C3 (amended).  For a challenge created with [max_attempts = N >= 1] and
    calls made before expiry: after each of the first [k <= N - 1] rejected
    responses the challenge is still pending with [N - k] attempts; the [N]th
    rejected response returns "Maximum attempts exceeded" and marks it
    completed and unsuccessful with 0 attempts; the [(N+1)]th call, whatever
    its response, returns [(False, "Challenge already completed")] and changes
    nothing, so attempts are not decremented further. *)
Theorem challenge_exhaustion
    (self : t) (ty uid sid uuid : string) (now1 now2 : Q)
    (before : list (Response * Q)) (nth extra : Response * Q) :
  let c0 := set_outcome
              {| challenge_id := uuid; challenge_type := ty; user_id := uid;
                 session_id := sid; created_at := now1;
                 expires_at := now2 + challenge_timeout self;
                 attempts_remaining := max_attempts self;
                 is_completed := false; is_successful := false |}
              (max_attempts self) false false in
  let st0 := snd (create_challenge self ty uid sid uuid now1 now2) in
  let st1 := snd (respond_all st0 uuid before) in
  let stN := snd (process_challenge_response st1 uuid (fst nth) (snd nth)) in
  (1 <= max_attempts self)%Z ->
  Z.of_nat (length before) = (max_attempts self - 1)%Z ->
  Forall (failing c0) (before ++ [nth]) ->
  snd extra <= expires_at c0 ->
  fst (create_challenge self ty uid sid uuid now1 now2) = Some c0
  /\ (forall k : nat, (k <= length before)%nat ->
        active_challenges (snd (respond_all st0 uuid (take k before))) !! uuid
        = Some (set_outcome c0 (max_attempts self - Z.of_nat k) false false))
  /\ fst (process_challenge_response st1 uuid (fst nth) (snd nth))
     = (false, "Maximum attempts exceeded")
  /\ active_challenges stN !! uuid = Some (set_outcome c0 0 true false)
  /\ process_challenge_response stN uuid (fst extra) (snd extra)
     = ((false, "Challenge already completed"), stN).
Proof.
  intros c0 st0 st1 stN HN Hlen Hall Hextra.
  apply Forall_app in Hall. destruct Hall as [Hbefore Hnth].
  apply Forall_inv in Hnth.
  assert (H0 : active_challenges st0 !! uuid
               = Some (set_outcome c0 (max_attempts self) false false)).
  { unfold st0, create_challenge. simpl. apply lookup_insert_eq. }
  assert (Hk : forall k : nat, (k <= length before)%nat ->
             active_challenges (snd (respond_all st0 uuid (take k before))) !! uuid
             = Some (set_outcome c0 (max_attempts self - Z.of_nat k) false false)).
  { intros k Hle.
    assert (Hlk : length (take k before) = k) by (rewrite length_take; lia).
    rewrite <- Hlk at 2.
    apply failing_run; [exact H0 | | rewrite Hlk; lia].
    apply Forall_take, Hbefore. }
  assert (H1 : active_challenges st1 !! uuid = Some (set_outcome c0 1 false false)).
  { unfold st1. specialize (Hk (length before) (le_n _)).
    rewrite firstn_all in Hk. rewrite Hk. f_equal. f_equal. lia. }
  pose proof (failing_step st1 uuid c0 1 nth H1 Hnth) as Hstep. simpl in Hstep.
  split; [reflexivity|]. split; [exact Hk|].
  split; [by rewrite Hstep|].
  assert (HsN : active_challenges stN !! uuid = Some (set_outcome c0 0 true false)).
  { unfold stN. rewrite Hstep. simpl. apply lookup_insert_eq. }
  split; [exact HsN|].
  apply (completed_replay stN uuid _ (fst extra) (snd extra) HsN); [reflexivity|exact Hextra].
Qed.

End ChallengeAttempts.

(** ** Challenge attempts: the default configuration, three wrong PINs *)
Section ChallengeInstance.

Import ChallengeManager.

Definition wrong_pin : Response :=
  {| pin := Some "0000"; expected_pin := Some "1234";
     biometric_data := None; biometric_confidence := None;
     sms_code := None; expected_code := None |}.

(** A manager with the default [max_attempts = 3] and one PIN challenge
    ["c1"], created at time 0 and valid until 300. *)
Definition one_pin_challenge : t :=
  snd (create_challenge (init default_config) "pin" "alice" "s1" "c1" 0 0).

Lemma challenge_exhaustion_witness :
  let self := init default_config in
  let c0 := set_outcome
              {| challenge_id := "c1"; challenge_type := "pin"; user_id := "alice";
                 session_id := "s1"; created_at := 0;
                 expires_at := 0 + challenge_timeout self;
                 attempts_remaining := max_attempts self;
                 is_completed := false; is_successful := false |}
              (max_attempts self) false false in
  let st1 := snd (respond_all one_pin_challenge "c1" [(wrong_pin, 1); (wrong_pin, 2)]) in
  let stN := snd (process_challenge_response st1 "c1" wrong_pin 3) in
  fst (process_challenge_response st1 "c1" wrong_pin 3) = (false, "Maximum attempts exceeded")
  /\ active_challenges stN !! "c1" = Some (set_outcome c0 0 true false)
  /\ process_challenge_response stN "c1" wrong_pin 4
     = ((false, "Challenge already completed"), stN).
Proof.
  intros self c0 st1 stN.
  assert (Hall : Forall (failing c0) ([(wrong_pin, 1); (wrong_pin, 2)] ++ [(wrong_pin, 3)])).
  { repeat constructor; vm_compute; discriminate. }
  assert (Hextra : snd (wrong_pin, 4) <= expires_at c0) by (vm_compute; discriminate).
  destruct (challenge_exhaustion self "pin" "alice" "s1" "c1" 0 0
              [(wrong_pin, 1); (wrong_pin, 2)] (wrong_pin, 3) (wrong_pin, 4)
              ltac:(vm_compute; discriminate) eq_refl Hall Hextra)
    as (_ & _ & HN & HsN & Hreplay).
  exact (conj HN (conj HsN Hreplay)).
Defined.

(** C3 (as stated, refuted).  With [max_attempts = 3], the third wrong PIN is
    the call that answers "Maximum attempts exceeded"; the fourth call answers
    "Challenge already completed". *)
Lemma fourth_call_is_a_replay :
  fst (respond_all one_pin_challenge "c1" [(wrong_pin, 1); (wrong_pin, 2); (wrong_pin, 3)])
  = [(false, "Invalid PIN"); (false, "Invalid PIN"); (false, "Maximum attempts exceeded")]
  /\ fst (process_challenge_response
            (snd (respond_all one_pin_challenge "c1"
                    [(wrong_pin, 1); (wrong_pin, 2); (wrong_pin, 3)]))
            "c1" wrong_pin 4)
     = (false, "Challenge already completed")
  /\ snd (fst (process_challenge_response
                 (snd (respond_all one_pin_challenge "c1"
                         [(wrong_pin, 1); (wrong_pin, 2); (wrong_pin, 3)]))
                 "c1" wrong_pin 4))
     <> "Maximum attempts exceeded".
Proof. vm_compute. repeat split. discriminate. Qed.

End ChallengeInstance.

(** ** Session validation: fingerprint and IP address *)
Section SessionGates.

Import SessionManager.

Lemma invalidate_removes (self : t) (sid : string) :
  active_sessions (snd (invalidate_session self sid)) !! sid = None.
Proof.
  unfold invalidate_session.
  destruct (active_sessions self !! sid) eqn:E; simpl; [apply lookup_delete_eq | exact E].
Qed.

(** A fingerprint mismatch invalidates, whatever the clock says. *)
Lemma fingerprint_mismatch_invalidates
    (self : t) (sid : string) (token : SessionToken) (fp ip : option string)
    (t_exp t_idle t_upd : Q) :
  active_sessions self !! sid = Some token ->
  mismatch fp (device_fingerprint token) = true ->
  fst (validate_session self sid fp ip t_exp t_idle t_upd) = None
  /\ active_sessions (snd (validate_session self sid fp ip t_exp t_idle t_upd)) !! sid = None.
Proof.
  intros Hlook Hmis. unfold validate_session. rewrite Hlook.
  destruct (is_expired token t_exp);
    [|destruct (Py.gt (t_idle - last_activity token) (idle_timeout self))];
    [| |rewrite Hmis]; simpl; (split; [reflexivity | apply invalidate_removes]).
Qed.

(** Without expiry, idleness or fingerprint mismatch the token is refreshed
    and kept, whether or not the IP address matches. *)
Lemma ip_is_not_checked
    (self : t) (sid : string) (token : SessionToken) (fp ip : option string)
    (t_exp t_idle t_upd : Q) :
  active_sessions self !! sid = Some token ->
  t_exp < expires_at token ->
  t_idle - last_activity token <= idle_timeout self ->
  mismatch fp (device_fingerprint token) = false ->
  validate_session self sid fp ip t_exp t_idle t_upd
  = (Some (update_activity token t_upd),
     with_sessions self (<[sid := update_activity token t_upd]> (active_sessions self))).
Proof.
  intros Hlook Hexp Hidle Hfp. unfold validate_session. rewrite Hlook.
  unfold is_expired, is_valid.
  apply lt_true in Hexp. rewrite Hexp. simpl.
  apply gt_false in Hidle. rewrite Hidle, Hfp.
  destruct (mismatch ip (ip_address token)); reflexivity.
Qed.

(** C2 (amended).  Where both sides supply a (non-empty) device fingerprint,
    a mismatch is a binary gate: [validate_session] removes the session and
    returns no token.  An IP address is not a gate: for a session that is
    neither expired nor idle and whose fingerprint check passes, a call with a
    different IP address still returns the refreshed token, keeps the session
    stored, and [SecurityManager] reports it valid with exactly 0.2 added to
    its risk score: the score is that of the same call without an address
    mismatch, plus 0.2. *)
Theorem fingerprint_gates_ip_does_not :
  (forall (self : t) (sid : string) (token : SessionToken) (fp ip : option string)
          (t_exp t_idle t_upd : Q),
      active_sessions self !! sid = Some token ->
      Py.truthy fp = true ->
      Py.truthy (device_fingerprint token) = true ->
      fp <> device_fingerprint token ->
      fst (validate_session self sid fp ip t_exp t_idle t_upd) = None
      /\ active_sessions (snd (validate_session self sid fp ip t_exp t_idle t_upd)) !! sid
         = None)
  /\ (forall (sec : SecurityManager.t) (sid : string) (token : SessionToken)
             (fp ip : option string) (t_exp t_idle t_upd t_age : Q),
        active_sessions (SecurityManager.session_manager sec) !! sid = Some token ->
        t_exp < expires_at token ->
        t_idle - last_activity token <= idle_timeout (SecurityManager.session_manager sec) ->
        mismatch fp (device_fingerprint token) = false ->
        Py.truthy ip = true ->
        Py.truthy (ip_address token) = true ->
        ip <> ip_address token ->
        let r := SecurityManager.validate_session sec sid fp ip t_exp t_idle t_upd t_age in
        fst (validate_session (SecurityManager.session_manager sec) sid fp ip t_exp t_idle t_upd)
        = Some (update_activity token t_upd)
        /\ active_sessions (SecurityManager.session_manager (snd r)) !! sid
           = Some (update_activity token t_upd)
        /\ fst (fst r) = true
        /\ exists info, snd (fst r) = Some info
             /\ 0.2 <= SecurityManager.info_risk_score info
             /\ forall other_ip : option string,
                  mismatch other_ip (ip_address token) = false ->
                  SecurityManager.info_risk_score info
                  == SecurityManager.risk_score
                       (SecurityManager._assess_session_security
                          (update_activity token t_upd) fp other_ip t_age) + 0.2).
Proof.
  split.
  - intros self sid token fp ip t_exp t_idle t_upd Hlook Hfp Htok Hne.
    apply (fingerprint_mismatch_invalidates self sid token); [exact Hlook|].
    unfold mismatch. rewrite Hfp, Htok. simpl.
    rewrite bool_decide_eq_false_2 by exact Hne. reflexivity.
  - intros sec sid token fp ip t_exp t_idle t_upd t_age Hlook Hexp Hidle Hfp Hip Htok Hne r.
    pose proof (ip_is_not_checked _ sid token fp ip t_exp t_idle t_upd Hlook Hexp Hidle Hfp)
      as Hval.
    assert (Hmis : mismatch ip (ip_address token) = true).
    { unfold mismatch. rewrite Hip, Htok. simpl.
      rewrite bool_decide_eq_false_2 by exact Hne. reflexivity. }
    split; [by rewrite Hval|].
    unfold r, SecurityManager.validate_session. rewrite Hval. simpl.
    split; [apply lookup_insert_eq|]. split; [reflexivity|].
    eexists. split; [reflexivity|]. simpl.
    unfold SecurityManager._assess_session_security. simpl.
    rewrite Hfp, Hmis. split.
    + destruct (Py.gt (t_age - created_at token) 3600);
        repeat match goal with
               | |- context [Py.ge ?a ?b] => destruct (Py.ge a b)
               end; simpl; lra.
    + intros other_ip Hother. rewrite Hother.
      destruct (Py.gt (t_age - created_at token) 3600);
        repeat match goal with
               | |- context [Py.ge ?a ?b] => destruct (Py.ge a b)
               end; simpl; lra.
Qed.

End SessionGates.

(** ** Session validation: one stored session *)
Section SessionInstance.

Import SessionManager.

Definition alice_token : SessionToken :=
  {| token_id := "t1"; user_id := "alice"; session_id := "s1";
     created_at := 0; expires_at := 1800; last_activity := 0;
     device_fingerprint := Some "laptop"; ip_address := Some "10.0.0.1" |}.

Definition alice_sessions : t :=
  with_sessions (init default_config) (<["s1" := alice_token]> ∅).

Definition alice_security : SecurityManager.t :=
  {| SecurityManager.session_manager := alice_sessions;
     SecurityManager.security_events := [] |}.

Lemma fingerprint_gates_ip_does_not_witness :
  (fst (validate_session alice_sessions "s1" (Some "phone") (Some "10.0.0.1") 10 10 10) = None
   /\ active_sessions
        (snd (validate_session alice_sessions "s1" (Some "phone") (Some "10.0.0.1") 10 10 10))
      !! "s1" = None)
  /\ fst (validate_session alice_sessions "s1" (Some "laptop") (Some "10.0.0.2") 10 10 10)
     = Some (update_activity alice_token 10)
  /\ exists info,
       snd (fst (SecurityManager.validate_session alice_security "s1"
                   (Some "laptop") (Some "10.0.0.2") 10 10 10 10)) = Some info
       /\ SecurityManager.info_risk_score info
          == SecurityManager.risk_score
               (SecurityManager._assess_session_security (update_activity alice_token 10)
                  (Some "laptop") (Some "10.0.0.1") 10) + 0.2.
Proof.
  split.
  - apply (proj1 fingerprint_gates_ip_does_not alice_sessions "s1" alice_token
             (Some "phone") (Some "10.0.0.1") 10 10 10); try reflexivity; discriminate.
  - assert (Hexp : 10 < expires_at alice_token) by reflexivity.
    assert (Hidle : 10 - last_activity alice_token
                    <= idle_timeout (SecurityManager.session_manager alice_security))
      by (vm_compute; discriminate).
    assert (Hne : Some "10.0.0.2" <> ip_address alice_token) by discriminate.
    destruct (proj2 fingerprint_gates_ip_does_not alice_security "s1" alice_token
                (Some "laptop") (Some "10.0.0.2") 10 10 10 10
                eq_refl Hexp Hidle eq_refl eq_refl eq_refl Hne)
      as (Htoken & _ & _ & info & Hinfo & _ & Hexact).
    split; [exact Htoken|].
    exists info. split; [exact Hinfo|].
    apply (Hexact (Some "10.0.0.1")). reflexivity.
Defined.

(** C2 (as stated, refuted for the IP address).  Both sides supply an IP
    address, the two differ, and [validate_session] still returns the token
    and keeps the session. *)
Lemma ip_mismatch_keeps_session :
  Py.truthy (Some "10.0.0.2") = true
  /\ Py.truthy (ip_address alice_token) = true
  /\ Some "10.0.0.2" <> ip_address alice_token
  /\ fst (validate_session alice_sessions "s1" (Some "laptop") (Some "10.0.0.2") 10 10 10)
     = Some (update_activity alice_token 10)
  /\ active_sessions
       (snd (validate_session alice_sessions "s1" (Some "laptop") (Some "10.0.0.2") 10 10 10))
     !! "s1" = Some (update_activity alice_token 10)
  /\ fst (fst (SecurityManager.validate_session alice_security "s1"
                 (Some "laptop") (Some "10.0.0.2") 10 10 10 10)) = true.
Proof.
  split; [reflexivity|]. split; [reflexivity|]. split; [discriminate|].
  vm_compute. repeat split.
Qed.

End SessionInstance.

(** ** Ending a session *)
Section EndSession.

Import AuthenticationManager.

(** C9 (amended).  [end_session] on a session id that is in neither the
    active-sessions map nor the security session registry returns [True] and
    leaves both maps, the security manager, the models and the statistics as
    they were, and the feature history of every other session.  It still calls
    [stop_session]: when the behavioral manager has a current session, that
    session, whichever id it carries, is marked inactive and collection is
    stopped. *)
Theorem end_unknown_session (self : t) (sid : string) :
  active_sessions self !! sid = None ->
  SessionManager.active_sessions
    (SecurityManager.session_manager (security_manager self)) !! sid = None ->
  fst (end_session self sid) = true
  /\ active_sessions (snd (end_session self sid)) = active_sessions self
  /\ security_manager (snd (end_session self sid)) = security_manager self
  /\ (forall other : string, other <> sid ->
        feature_history (snd (end_session self sid)) !! other = feature_history self !! other)
  /\ ml_manager (snd (end_session self sid)) = ml_manager self
  /\ stats (snd (end_session self sid)) = stats self
  /\ behavioral_manager (snd (end_session self sid))
     = snd (BehavioralDataManager.stop_session (behavioral_manager self))
  /\ (forall s : BehavioralDataManager.BehaviorSession,
        BehavioralDataManager.current_session (behavioral_manager self) = Some s ->
        BehavioralDataManager.current_session (behavioral_manager (snd (end_session self sid)))
        = Some (BehavioralDataManager.deactivate s)
        /\ BehavioralDataManager.is_running (behavioral_manager (snd (end_session self sid)))
           = false).
Proof.
  intros Hactive Hregistry. unfold end_session. simpl.
  split; [reflexivity|].
  split; [apply delete_id, Hactive|].
  split.
  { unfold SessionManager.invalidate_session. rewrite Hregistry. simpl.
    destruct (security_manager self); reflexivity. }
  split; [intros other Hne; apply lookup_delete_ne; congruence|].
  split; [reflexivity|]. split; [reflexivity|]. split; [reflexivity|].
  intros s Hs. unfold BehavioralDataManager.stop_session. rewrite Hs. simpl.
  split; reflexivity.
Qed.

End EndSession.

(** ** Scoring unavailable *)
Section ScoringUnavailable.

Import AuthenticationManager.

(** Untrained models answer the pessimistic pair (0.0, 1.0); the fused
    confidence is 0 and lies below every effective threshold. *)
Lemma untrained_analysis (ml : MLManager.t) (features : Features) (context : string) :
  is_trained (MLManager.behavior_classifier ml) = false ->
  is_trained (MLManager.anomaly_detector ml) = false ->
  MLManager.auth_confidence (MLManager.analyze_behavior ml features context) = 0.0
  /\ MLManager.anomaly_score (MLManager.analyze_behavior ml features context) = 1.0
  /\ MLManager.combined_confidence (MLManager.analyze_behavior ml features context) == 0
  /\ MLManager.decision (MLManager.analyze_behavior ml features context) = Logout.
Proof.
  intros Hc Hd. unfold MLManager.analyze_behavior. simpl.
  unfold BehaviorClassifier.predict, AnomalyDetector.predict. rewrite Hc, Hd. simpl.
  split; [reflexivity|]. split; [reflexivity|]. split; [reflexivity|].
  unfold MLManager.determine.
  set (c := (0.0 + (1 - 1.0)) / 2).
  assert (Hzero : c == 0) by reflexivity.
  pose proof (get_threshold_range (MLManager.adaptive_thresholds ml) "high_confidence" context).
  pose proof (get_threshold_range (MLManager.adaptive_thresholds ml) "medium_confidence" context).
  pose proof (get_threshold_range (MLManager.adaptive_thresholds ml) "low_confidence" context).
  clearbody c.
  repeat match goal with
         | |- context [Py.ge c ?h] =>
             let E := fresh "E" in
             destruct (Py.ge c h) eqn:E; [apply ge_true in E; exfalso; lra|]
         end.
  reflexivity.
Qed.

Lemma validation_passed (sec : SecurityManager.t) (sid : string) (fp ip : option string)
    (t1 t2 t3 t4 : Q) :
  fst (fst (SecurityManager.validate_session sec sid fp ip t1 t2 t3 t4)) = true ->
  exists info sec',
    SecurityManager.validate_session sec sid fp ip t1 t2 t3 t4 = ((true, Some info), sec').
Proof.
  unfold SecurityManager.validate_session.
  destruct (SessionManager.validate_session _ sid fp ip t1 t2 t3) as [[token|] sm]; simpl.
  - intros _. eauto.
  - discriminate.
Qed.

(** An untrained model answers the pessimistic end of its scale, and every
    prediction lies in [0, 1] when the trained scores do. *)
Lemma classifier_predict_untrained (m : Model) (f : Features) :
  is_trained m = false -> fst (BehaviorClassifier.predict m f) = 0.0.
Proof. intros H. unfold BehaviorClassifier.predict. rewrite H. reflexivity. Qed.

Lemma detector_predict_untrained (m : Model) (f : Features) :
  is_trained m = false -> fst (AnomalyDetector.predict m f) = 1.0.
Proof. intros H. unfold AnomalyDetector.predict. rewrite H. reflexivity. Qed.

Lemma classifier_predict_range (m : Model) (f : Features) :
  (forall f q, trained_score m f = Returned q -> 0 <= q <= 1) ->
  0 <= fst (BehaviorClassifier.predict m f) <= 1.
Proof.
  intros H. unfold BehaviorClassifier.predict.
  destruct (is_trained m); simpl; [|lra].
  destruct (trained_score m f) eqn:E; simpl; [|lra].
  eapply H, E.
Qed.

Lemma detector_predict_range (m : Model) (f : Features) :
  (forall f q, trained_score m f = Returned q -> 0 <= q <= 1) ->
  0 <= fst (AnomalyDetector.predict m f) <= 1.
Proof.
  intros H. unfold AnomalyDetector.predict.
  destruct (is_trained m); simpl; [|lra].
  destruct (trained_score m f) eqn:E; simpl; [|lra].
  eapply H, E.
Qed.

(** With one model untrained the fused confidence is at most one half. *)
Lemma one_untrained_analysis (ml : MLManager.t) (features : Features) (context : string) :
  is_trained (MLManager.behavior_classifier ml) = false
  \/ is_trained (MLManager.anomaly_detector ml) = false ->
  (forall f q, trained_score (MLManager.behavior_classifier ml) f = Returned q -> 0 <= q <= 1) ->
  (forall f q, trained_score (MLManager.anomaly_detector ml) f = Returned q -> 0 <= q <= 1) ->
  MLManager.combined_confidence (MLManager.analyze_behavior ml features context) <= 0.5.
Proof.
  intros Hone Hc Hd. unfold MLManager.analyze_behavior. simpl.
  pose proof (classifier_predict_range _ features Hc) as Ha.
  pose proof (detector_predict_range _ features Hd) as Hb.
  assert (Hab : fst (BehaviorClassifier.predict (MLManager.behavior_classifier ml) features) == 0
                \/ fst (AnomalyDetector.predict (MLManager.anomaly_detector ml) features) == 1).
  { destruct Hone as [H|H].
    - left. rewrite (classifier_predict_untrained _ features H). reflexivity.
    - right. rewrite (detector_predict_untrained _ features H). reflexivity. }
  set (a := fst (BehaviorClassifier.predict _ _)) in *.
  set (b := fst (AnomalyDetector.predict _ _)) in *.
  clearbody a b.
  apply Qle_shift_div_r; [reflexivity|].
  destruct Hab; lra.
Qed.

(** The cascade at a confidence of at most one half. *)
Lemma determine_at_most_half (h m l c : Q) :
  c <= 0.5 -> 0.5 < h -> 0.5 < m ->
  fst (MLManager.determine h m l c) = Challenge \/ fst (MLManager.determine h m l c) = Logout.
Proof.
  intros Hc Hh Hm. unfold MLManager.determine.
  destruct (Py.ge c h) eqn:Eh; [apply ge_true in Eh; exfalso; lra|].
  destruct (Py.ge c m) eqn:Em; [apply ge_true in Em; exfalso; lra|].
  destruct (Py.ge c l); simpl; tauto.
Qed.

Lemma determine_at_most_half_default (h m l c : Q) :
  c <= 0.5 -> h == 0.9 -> m == 0.7 -> l == 0.5 ->
  fst (MLManager.determine h m l c) = Logout
  \/ (fst (MLManager.determine h m l c) = Challenge /\ c == 0.5).
Proof.
  intros Hc Hh Hm Hl. unfold MLManager.determine.
  destruct (Py.ge c h) eqn:Eh; [apply ge_true in Eh; exfalso; lra|].
  destruct (Py.ge c m) eqn:Em; [apply ge_true in Em; exfalso; lra|].
  destruct (Py.ge c l) eqn:El; simpl; [right | left; reflexivity].
  apply ge_true in El. split; [reflexivity | lra].
Qed.

(** With features present, the result of a validated call is the system
    error result (the session is not in the active-sessions map) or carries
    the decision and the fused confidence of one analysis by the manager's
    models. *)
Lemma scored_result (self : t) (sid : string) (context : option Context) (clock : Clock)
    (features : BehavioralDataManager.BiometricFeatures) :
  fst (fst (SecurityManager.validate_session (security_manager self) sid
              (context ≫= ctx_device_fingerprint) (context ≫= ctx_ip_address)
              (t_exp clock) (t_idle clock) (t_upd clock) (t_age clock))) = true ->
  BehavioralDataManager.get_current_features (behavioral_manager self) (Returned features)
  = Returned (Some features) ->
  (decision (fst (authenticate_continuously self sid context clock (Returned features)))
   = Logout
   /\ confidence (fst (authenticate_continuously self sid context clock (Returned features)))
      = 0.0
   /\ success (fst (authenticate_continuously self sid context clock (Returned features)))
      = false)
  \/ exists f : Features,
       decision (fst (authenticate_continuously self sid context clock (Returned features)))
       = MLManager.decision
           (MLManager.analyze_behavior (ml_manager self) f
              (default "default" (context ≫= ctx_context)))
       /\ confidence (fst (authenticate_continuously self sid context clock (Returned features)))
          = MLManager.combined_confidence
              (MLManager.analyze_behavior (ml_manager self) f
                 (default "default" (context ≫= ctx_context)))
       /\ success (fst (authenticate_continuously self sid context clock (Returned features)))
          = match MLManager.decision
                    (MLManager.analyze_behavior (ml_manager self) f
                       (default "default" (context ≫= ctx_context))) with
            | Continue | Monitor => true
            | _ => false
            end.
Proof.
  intros Hvalid Hsome.
  destruct (validation_passed _ _ _ _ _ _ _ _ Hvalid) as (info & sec' & Hv).
  unfold authenticate_continuously. rewrite Hv.
  cbn -[MLManager.analyze_behavior]. rewrite Hsome.
  cbn -[MLManager.analyze_behavior].
  destruct (active_sessions self !! sid) as [s|]; cbn -[MLManager.analyze_behavior].
  - right. eexists. split; [reflexivity|]. split; reflexivity.
  - left. split; [reflexivity|]. split; reflexivity.
Qed.

(** C1 (amended).  For a session that passes validation, the neutral value
    0.5 with the decision 'monitor' is what the call returns when the
    behavioral inputs are missing ([get_current_features] gives nothing), and
    only then.  A model that is not trained is not replaced by a neutral
    value: the untrained classifier contributes the confidence 0.0 and the
    untrained detector the anomaly score 1.0, so the fused confidence is
    (1 - anomaly) / 2, resp. confidence / 2.  With features present and the
    classifier or the detector untrained (scores of a trained model in
    [0, 1]), the confidence of the result is at most 0.5 and its decision is
    never more trusted than the cascade's decision at 0.5; where the effective
    high and medium thresholds exceed 0.5 the call does not succeed and the
    decision is 'challenge' or 'logout'; with the default thresholds it is
    'logout', or 'challenge' with confidence exactly 0.5.  With both models
    untrained the confidence is 0 and the decision is 'logout' under every
    threshold.  In each case a result is returned. *)
Theorem neutral_only_for_missing_inputs :
  (forall (self : t) (sid : string) (context : option Context) (clock : Clock)
          (collected : Outcome BehavioralDataManager.BiometricFeatures),
      fst (fst (SecurityManager.validate_session (security_manager self) sid
                  (context ≫= ctx_device_fingerprint) (context ≫= ctx_ip_address)
                  (t_exp clock) (t_idle clock) (t_upd clock) (t_age clock))) = true ->
      BehavioralDataManager.get_current_features (behavioral_manager self) collected
      = Returned None ->
      decision (fst (authenticate_continuously self sid context clock collected)) = Monitor
      /\ confidence (fst (authenticate_continuously self sid context clock collected)) = 0.5
      /\ success (fst (authenticate_continuously self sid context clock collected)) = true)
  /\ (forall (ml : MLManager.t) (features : Features) (context : string),
        let a := MLManager.analyze_behavior ml features context in
        (is_trained (MLManager.behavior_classifier ml) = false ->
         MLManager.auth_confidence a = 0.0
         /\ MLManager.combined_confidence a == (1 - MLManager.anomaly_score a) / 2)
        /\ (is_trained (MLManager.anomaly_detector ml) = false ->
            MLManager.anomaly_score a = 1.0
            /\ MLManager.combined_confidence a == MLManager.auth_confidence a / 2))
  /\ (forall (self : t) (sid : string) (context : option Context) (clock : Clock)
             (features : BehavioralDataManager.BiometricFeatures),
        fst (fst (SecurityManager.validate_session (security_manager self) sid
                    (context ≫= ctx_device_fingerprint) (context ≫= ctx_ip_address)
                    (t_exp clock) (t_idle clock) (t_upd clock) (t_age clock))) = true ->
        BehavioralDataManager.get_current_features (behavioral_manager self) (Returned features)
        = Returned (Some features) ->
        is_trained (MLManager.behavior_classifier (ml_manager self)) = false
        \/ is_trained (MLManager.anomaly_detector (ml_manager self)) = false ->
        (forall f q, trained_score (MLManager.behavior_classifier (ml_manager self)) f
                     = Returned q -> 0 <= q <= 1) ->
        (forall f q, trained_score (MLManager.anomaly_detector (ml_manager self)) f
                     = Returned q -> 0 <= q <= 1) ->
        let r := fst (authenticate_continuously self sid context clock (Returned features)) in
        let th := fun level : string =>
          AdaptiveThresholds.get_threshold (MLManager.adaptive_thresholds (ml_manager self))
            level (default "default" (context ≫= ctx_context)) in
        confidence r <= 0.5
        /\ (trust (decision r)
            <= trust (fst (MLManager.determine (th "high_confidence") (th "medium_confidence")
                             (th "low_confidence") 0.5)))%nat
        /\ (0.5 < th "high_confidence" -> 0.5 < th "medium_confidence" ->
            success r = false /\ (decision r = Challenge \/ decision r = Logout))
        /\ (MLManager.adaptive_thresholds (ml_manager self)
            = AdaptiveThresholds.init default_config ->
            success r = false
            /\ (decision r = Logout \/ (decision r = Challenge /\ confidence r == 0.5))))
  /\ (forall (self : t) (sid : string) (context : option Context) (clock : Clock)
             (features : BehavioralDataManager.BiometricFeatures),
        fst (fst (SecurityManager.validate_session (security_manager self) sid
                    (context ≫= ctx_device_fingerprint) (context ≫= ctx_ip_address)
                    (t_exp clock) (t_idle clock) (t_upd clock) (t_age clock))) = true ->
        BehavioralDataManager.get_current_features (behavioral_manager self) (Returned features)
        = Returned (Some features) ->
        is_trained (MLManager.behavior_classifier (ml_manager self)) = false ->
        is_trained (MLManager.anomaly_detector (ml_manager self)) = false ->
        decision (fst (authenticate_continuously self sid context clock (Returned features)))
        = Logout
        /\ confidence (fst (authenticate_continuously self sid context clock (Returned features)))
           == 0
        /\ success (fst (authenticate_continuously self sid context clock (Returned features)))
           = false).
Proof.
  split; [|split; [|split]].
  - intros self sid context clock collected Hvalid Hnone.
    destruct (validation_passed _ _ _ _ _ _ _ _ Hvalid) as (info & sec' & Hv).
    unfold authenticate_continuously. rewrite Hv. simpl. rewrite Hnone. simpl.
    repeat split.
  - intros ml features context a. subst a. unfold MLManager.analyze_behavior. simpl. split.
    + intros Hc. rewrite (classifier_predict_untrained _ features Hc).
      split; [reflexivity|].
      set (b := fst (AnomalyDetector.predict _ _)). clearbody b. field.
    + intros Hd. rewrite (detector_predict_untrained _ features Hd).
      split; [reflexivity|].
      set (x := fst (BehaviorClassifier.predict _ _)). clearbody x. field.
  - intros self sid context clock features Hvalid Hsome Hone Hcu Hdu r th.
    destruct (scored_result self sid context clock features Hvalid Hsome)
      as [(Hd & Hc & Hs) | (f & Hd & Hc & Hs)]; fold r in Hd, Hc, Hs.
    + rewrite Hd, Hc, Hs. split; [lra|]. split; [simpl; lia|].
      split; [intros _ _ | intros _]; (split; [reflexivity|]); [right | left]; reflexivity.
    + pose proof (one_untrained_analysis (ml_manager self) f
                    (default "default" (context ≫= ctx_context)) Hone Hcu Hdu) as Hle.
      rewrite Hd, Hc, Hs.
      set (c := MLManager.combined_confidence _) in *.
      change (MLManager.decision
                (MLManager.analyze_behavior (ml_manager self) f
                   (default "default" (context ≫= ctx_context))))
        with (fst (MLManager.determine (th "high_confidence") (th "medium_confidence")
                     (th "low_confidence") c)).
      clearbody c.
      split; [exact Hle|]. split; [apply determine_monotone, Hle|]. split.
      * intros Hh Hm.
        destruct (determine_at_most_half _ _ (th "low_confidence") c Hle Hh Hm) as [E|E];
          rewrite E; split; [reflexivity | left; reflexivity | reflexivity | right; reflexivity].
      * intros Hdefault.
        destruct (default_thresholds (default "default" (context ≫= ctx_context)))
          as (Hh & Hm & Hl).
        unfold th. rewrite Hdefault.
        destruct (determine_at_most_half_default _ _ _ c Hle Hh Hm Hl) as [E|[E Ec]];
          rewrite E; split; [reflexivity | left; reflexivity | reflexivity |].
        right. split; [reflexivity | exact Ec].
  - intros self sid context clock features Hvalid Hsome Hc Hd.
    destruct (validation_passed _ _ _ _ _ _ _ _ Hvalid) as (info & sec' & Hv).
    unfold authenticate_continuously. rewrite Hv.
    cbn -[MLManager.analyze_behavior]. rewrite Hsome.
    cbn -[MLManager.analyze_behavior].
    destruct (active_sessions self !! sid) as [s|]; cbn -[MLManager.analyze_behavior].
    + match goal with
      | |- context [MLManager.analyze_behavior ?ml ?f ?c] =>
          destruct (untrained_analysis ml f c Hc Hd) as (_ & _ & Hcomb & Hdec)
      end.
      rewrite Hdec. simpl. split; [reflexivity|]. split; [exact Hcomb | reflexivity].
    + repeat split.
Qed.

End ScoringUnavailable.

(** ** One authenticated user, models not yet trained *)
Section AuthInstance.

Import AuthenticationManager.

Definition untrained : Model :=
  {| is_trained := false; trained_score := fun _ => Raised "not fitted" |}.

Definition sample : BehavioralDataManager.BiometricFeatures :=
  {| BehavioralDataManager.bf_user_id := "alice";
     BehavioralDataManager.bf_session_id := "s1";
     BehavioralDataManager.bf_timestamp := 10;
     BehavioralDataManager.keystroke_features := <["dwell_mean" := 0.15]> ∅;
     BehavioralDataManager.mouse_features := ∅;
     BehavioralDataManager.bf_confidence_score := 0.4 |}.

(** Session ["s1"] of alice: stored in the security registry and in the
    active-sessions map, with the behavioral session running. *)
Definition alice_auth : t :=
  {| behavioral_manager :=
       {| BehavioralDataManager.current_session :=
            Some {| BehavioralDataManager.session_id := "s1";
                    BehavioralDataManager.user_id := "alice";
                    BehavioralDataManager.start_time := 0;
                    BehavioralDataManager.features_collected := 0;
                    BehavioralDataManager.is_active := true;
                    BehavioralDataManager.confidence_score := 0 |};
          BehavioralDataManager.is_running := true;
          BehavioralDataManager.keystroke_collector_active := true;
          BehavioralDataManager.mouse_collector_active := true |};
     security_manager := alice_security;
     ml_manager := MLManager.init default_config untrained untrained;
     feature_extractor := fun bf _ _ => BehavioralDataManager.keystroke_features bf;
     active_sessions :=
       <["s1" := {| ss_user_id := "alice"; start_time := 0; last_authentication := 0;
                    authentication_count := 0;
                    ss_device_fingerprint := Some "laptop";
                    ss_ip_address := Some "10.0.0.1" |}]> ∅;
     feature_history := <["s1" := []]> ∅;
     stats := {| total_authentications := 0; successful_authentications := 0;
                 challenged_authentications := 0; failed_authentications := 0;
                 average_confidence := 0 |} |}.

Definition at_ten : Clock :=
  {| t_exp := 10; t_idle := 10; t_upd := 10; t_age := 10; t_duration := 10; t_auth := 10 |}.

Lemma end_unknown_session_witness :
  fst (end_session alice_auth "ghost") = true
  /\ active_sessions (snd (end_session alice_auth "ghost")) = active_sessions alice_auth
  /\ security_manager (snd (end_session alice_auth "ghost")) = security_manager alice_auth.
Proof.
  destruct (end_unknown_session alice_auth "ghost" eq_refl eq_refl) as (H1 & H2 & H3 & _).
  exact (conj H1 (conj H2 H3)).
Defined.

(** C9 (as stated, refuted).  ["ghost"] is an unknown session id and
    [end_session] returns [True] for it, but the behavioral session of the other
    session ["s1"] goes from active to inactive, and [get_current_features] no
    longer delivers its features. *)
Lemma ending_unknown_session_stops_the_current_one :
  active_sessions alice_auth !! "ghost" = None
  /\ SessionManager.active_sessions
       (SecurityManager.session_manager (security_manager alice_auth)) !! "ghost" = None
  /\ fst (end_session alice_auth "ghost") = true
  /\ BehavioralDataManager.session_id
       <$> BehavioralDataManager.current_session (behavioral_manager alice_auth) = Some "s1"
  /\ BehavioralDataManager.is_active
       <$> BehavioralDataManager.current_session (behavioral_manager alice_auth) = Some true
  /\ BehavioralDataManager.is_active
       <$> BehavioralDataManager.current_session
             (behavioral_manager (snd (end_session alice_auth "ghost"))) = Some false
  /\ BehavioralDataManager.get_current_features (behavioral_manager alice_auth)
       (Returned sample) = Returned (Some sample)
  /\ BehavioralDataManager.get_current_features
       (behavioral_manager (snd (end_session alice_auth "ghost")))
       (Returned sample) = Returned None.
Proof. repeat split. Qed.

(** The same session with other models in the manager. *)
Definition alice_with (classifier detector : Model) : t :=
  {| behavioral_manager := behavioral_manager alice_auth;
     security_manager := security_manager alice_auth;
     ml_manager := MLManager.init default_config classifier detector;
     feature_extractor := feature_extractor alice_auth;
     active_sessions := active_sessions alice_auth;
     feature_history := feature_history alice_auth;
     stats := stats alice_auth |}.

Lemma neutral_only_for_missing_inputs_witness :
  decision (fst (authenticate_continuously (snd (end_session alice_auth "ghost")) "s1"
                   None at_ten (Returned sample))) = Monitor
  /\ MLManager.auth_confidence
       (MLManager.analyze_behavior (ml_manager (alice_with untrained (constant_model 0)))
          ∅ "default") = 0.0
  /\ confidence (fst (authenticate_continuously (alice_with untrained (constant_model 0)) "s1"
                        None at_ten (Returned sample))) <= 0.5
  /\ success (fst (authenticate_continuously (alice_with (constant_model 1) untrained) "s1"
                     None at_ten (Returned sample))) = false
  /\ decision (fst (authenticate_continuously alice_auth "s1" None at_ten (Returned sample)))
     = Logout.
Proof.
  destruct neutral_only_for_missing_inputs as (Hmissing & Hvalues & Hone & Hboth).
  split; [|split; [|split; [|split]]].
  - apply (Hmissing (snd (end_session alice_auth "ghost")) "s1" None at_ten (Returned sample));
      reflexivity.
  - apply (Hvalues (ml_manager (alice_with untrained (constant_model 0))) ∅ "default").
    reflexivity.
  - apply (Hone (alice_with untrained (constant_model 0)) "s1" None at_ten sample);
      [reflexivity | reflexivity | left; reflexivity | discriminate |].
    intros f q [= <-]. split; vm_compute; discriminate.
  - apply (Hone (alice_with (constant_model 1) untrained) "s1" None at_ten sample);
      [reflexivity | reflexivity | right; reflexivity | | discriminate | reflexivity].
    intros f q [= <-]. split; vm_compute; discriminate.
  - apply (Hboth alice_auth "s1" None at_ten sample); reflexivity.
Defined.

(** C1 (as stated, refuted).  The session passes validation and features are
    present.  With the classifier untrained and a trained detector that
    reports no anomaly at all, the decision is 'challenge' at confidence 0.5;
    so it is with the detector untrained and a trained classifier that is
    certain of the user; with the classifier untrained and a detector reporting
    the anomaly score 0.2, the confidence is 0.4 and the decision 'logout';
    with both untrained the confidence is 0 and the decision 'logout'.  None of
    the four is 'monitor', and none of the calls succeeds. *)
Lemma one_untrained_model_gives_challenge_or_logout :
  fst (fst (SecurityManager.validate_session (security_manager alice_auth) "s1"
              None None 10 10 10 10)) = true
  /\ (is_trained (MLManager.behavior_classifier
                    (ml_manager (alice_with untrained (constant_model 0)))) = false
      /\ is_trained (MLManager.anomaly_detector
                       (ml_manager (alice_with untrained (constant_model 0)))) = true
      /\ decision (fst (authenticate_continuously (alice_with untrained (constant_model 0))
                          "s1" None at_ten (Returned sample))) = Challenge
      /\ confidence (fst (authenticate_continuously (alice_with untrained (constant_model 0))
                            "s1" None at_ten (Returned sample))) == 0.5
      /\ success (fst (authenticate_continuously (alice_with untrained (constant_model 0))
                         "s1" None at_ten (Returned sample))) = false)
  /\ (is_trained (MLManager.behavior_classifier
                    (ml_manager (alice_with (constant_model 1) untrained))) = true
      /\ is_trained (MLManager.anomaly_detector
                       (ml_manager (alice_with (constant_model 1) untrained))) = false
      /\ decision (fst (authenticate_continuously (alice_with (constant_model 1) untrained)
                          "s1" None at_ten (Returned sample))) = Challenge
      /\ confidence (fst (authenticate_continuously (alice_with (constant_model 1) untrained)
                            "s1" None at_ten (Returned sample))) == 0.5
      /\ success (fst (authenticate_continuously (alice_with (constant_model 1) untrained)
                         "s1" None at_ten (Returned sample))) = false)
  /\ (is_trained (MLManager.behavior_classifier
                    (ml_manager (alice_with untrained (constant_model 0.2)))) = false
      /\ is_trained (MLManager.anomaly_detector
                       (ml_manager (alice_with untrained (constant_model 0.2)))) = true
      /\ decision (fst (authenticate_continuously (alice_with untrained (constant_model 0.2))
                          "s1" None at_ten (Returned sample))) = Logout
      /\ confidence (fst (authenticate_continuously (alice_with untrained (constant_model 0.2))
                            "s1" None at_ten (Returned sample))) == 0.4
      /\ success (fst (authenticate_continuously (alice_with untrained (constant_model 0.2))
                         "s1" None at_ten (Returned sample))) = false)
  /\ (is_trained (MLManager.behavior_classifier (ml_manager alice_auth)) = false
      /\ is_trained (MLManager.anomaly_detector (ml_manager alice_auth)) = false
      /\ decision (fst (authenticate_continuously alice_auth "s1" None at_ten
                          (Returned sample))) = Logout
      /\ confidence (fst (authenticate_continuously alice_auth "s1" None at_ten
                            (Returned sample))) == 0
      /\ success (fst (authenticate_continuously alice_auth "s1" None at_ten
                         (Returned sample))) = false).
Proof. vm_compute. repeat split. Qed.

End AuthInstance.

(* ================================================================== *)
(** * Further properties of the threshold store and the decision cascade *)
(* ================================================================== *)
Section ThresholdsMore.

Import AdaptiveThresholds.

Lemma run_app (self : t) (cs1 cs2 : list call) :
  run self (cs1 ++ cs2) = run (run self cs1) cs2.
Proof. unfold run. apply fold_left_app. Qed.

Lemma run_keeps_base (cs : list call) (self : t) :
  thresholds (run self cs) = thresholds self
  /\ learning_rate (run self cs) = learning_rate self.
Proof.
  revert self. induction cs as [|c cs IH]; intros self; [split; reflexivity|].
  simpl. destruct (IH (apply_call self c)) as [Ht Hl]. rewrite Ht, Hl. split; reflexivity.
Qed.

(** X1. Feedback for one context leaves the effective thresholds of every
    other context exactly as they were (any store, any feedback, any level). *)
Theorem adjust_threshold_other_context
    (self : t) (context feedback : string) (score : Q) (level other : string) :
  other <> context ->
  get_threshold (adjust_threshold self context feedback score) level other
  = get_threshold self level other.
Proof.
  intros Hne. unfold get_threshold, adjust_threshold. simpl.
  rewrite lookup_insert_ne by congruence. reflexivity.
Qed.

Lemma adjust_threshold_other_context_witness :
  get_threshold (adjust_threshold (init default_config) "payment" "false_negative" 0.1)
    "low_confidence" "login"
  = get_threshold (init default_config) "low_confidence" "login".
Proof.
  apply (adjust_threshold_other_context (init default_config) "payment" "false_negative" 0.1
           "low_confidence" "login"). discriminate.
Defined.

Lemma clamp_monotone (lo hi x y : Q) :
  x <= y -> Py.max lo (Py.min hi x) <= Py.max lo (Py.min hi y).
Proof.
  intros Hxy. unfold Py.max, Py.min.
  destruct (Qlt_le_dec x hi); destruct (Qlt_le_dec y hi);
    repeat match goal with |- context [Qlt_le_dec ?a ?b] => destruct (Qlt_le_dec a b) end;
    lra.
Qed.

(** X2. On a store reached from construction by feedback calls and for an
    observed score in [0, 1]: 'false_positive' never raises and
    'false_negative' never lowers any effective threshold of the context. *)
Theorem feedback_direction
    (config : Cfg.Config) (cs : list call) (context level : string) (score : Q) :
  0 <= score <= 1 ->
  get_threshold (adjust_threshold (run (init config) cs) context "false_positive" score)
    level context
  <= get_threshold (run (init config) cs) level context
  /\ get_threshold (run (init config) cs) level context
     <= get_threshold (adjust_threshold (run (init config) cs) context "false_negative" score)
          level context.
Proof.
  intros [H0 H1].
  set (st := run (init config) cs).
  assert (Hb : adjustments_bounded st) by apply run_bounded, init_bounded.
  assert (Hlr : learning_rate st = 0.1) by apply (run_keeps_base cs (init config)).
  pose proof (bounded_lookup st context Hb) as Hadj.
  unfold get_threshold, adjust_threshold. simpl.
  rewrite !lookup_insert_eq. simpl. rewrite Hlr.
  set (a := default 0 (context_adjustments st !! context)) in *.
  set (b := default 0.7 (thresholds st !! level)).
  clearbody a b. split; apply clamp_monotone.
  - assert (Py.max (-0.3) (Py.min 0.3 (a - 0.1 * score)) <= a); [|lra].
    rewrite <- (clamp_inside (-0.3) 0.3 a Hadj) at 2. apply clamp_monotone. nra.
  - assert (a <= Py.max (-0.3) (Py.min 0.3 (a + 0.1 * (1 - score)))); [|lra].
    rewrite <- (clamp_inside (-0.3) 0.3 a Hadj) at 1. apply clamp_monotone. nra.
Qed.

Lemma feedback_direction_witness :
  get_threshold (adjust_threshold (run (init default_config) []) "login" "false_positive" 0.5)
    "low_confidence" "login"
  <= get_threshold (run (init default_config) []) "low_confidence" "login".
Proof.
  apply (feedback_direction default_config [] "login" "low_confidence" 0.5).
  split; vm_compute; discriminate.
Defined.

(** X3. If the configured base values are ordered low <= medium <= high,
    the effective thresholds stay ordered for every context after any sequence
    of feedback calls: adaptation shifts the three levels together. *)
Theorem ordered_base_stays_ordered (config : Cfg.Config) (cs : list call) (context : string) :
  Cfg.level config Cfg.low 0.5 <= Cfg.level config Cfg.medium 0.7 ->
  Cfg.level config Cfg.medium 0.7 <= Cfg.level config Cfg.high 0.9 ->
  get_threshold (run (init config) cs) "low_confidence" context
  <= get_threshold (run (init config) cs) "medium_confidence" context
  /\ get_threshold (run (init config) cs) "medium_confidence" context
     <= get_threshold (run (init config) cs) "high_confidence" context.
Proof.
  intros Hlm Hmh. unfold get_threshold.
  destruct (run_keeps_base cs (init config)) as [-> _].
  destruct (init_stores_levels config) as (-> & -> & ->). simpl.
  split; apply clamp_monotone; lra.
Qed.

Lemma ordered_base_stays_ordered_witness :
  get_threshold (run (init default_config) []) "low_confidence" "login"
  <= get_threshold (run (init default_config) []) "medium_confidence" "login"
  /\ get_threshold (run (init default_config) []) "medium_confidence" "login"
     <= get_threshold (run (init default_config) []) "high_confidence" "login".
Proof.
  apply (ordered_base_stays_ordered default_config [] "login"); vm_compute; discriminate.
Defined.

End ThresholdsMore.

Section DecisionMore.

Import MLManager.

(** X4. With ordered thresholds low <= medium <= high the cascade is the
    band table: 'continue' from high upwards, 'monitor' in [medium, high),
    'challenge' in [low, medium), 'logout' below low; and the confidence level
    is the decision's own name in the table high / medium / low / very_low. *)
Theorem decision_bands (h m l c : Q) :
  l <= m -> m <= h ->
  (fst (determine h m l c) = Continue <-> h <= c)
  /\ (fst (determine h m l c) = Monitor <-> m <= c /\ c < h)
  /\ (fst (determine h m l c) = Challenge <-> l <= c /\ c < m)
  /\ (fst (determine h m l c) = Logout <-> c < l)
  /\ snd (determine h m l c)
     = match fst (determine h m l c) with
       | Continue => "high" | Monitor => "medium" | Challenge => "low" | Logout => "very_low"
       end.
Proof.
  intros Hlm Hmh. unfold determine.
  destruct (Py.ge c h) eqn:Eh; [apply ge_true in Eh | apply ge_false in Eh];
  (destruct (Py.ge c m) eqn:Em; [apply ge_true in Em | apply ge_false in Em]);
  (destruct (Py.ge c l) eqn:El; [apply ge_true in El | apply ge_false in El]);
  simpl; repeat split; intros; try discriminate; try lra;
    match goal with H : _ /\ _ |- _ => destruct H; lra end.
Qed.

Lemma decision_bands_witness :
  fst (determine 0.9 0.7 0.5 0.6) = Challenge <-> 0.5 <= 0.6 /\ 0.6 < 0.7.
Proof.
  apply (decision_bands 0.9 0.7 0.5 0.6); vm_compute; discriminate.
Defined.

(** X5. When the medium threshold is not above the low one, no combined
    confidence is ever answered with 'challenge'; when the high threshold is
    not above the medium one, none is answered with 'monitor'. *)
Theorem misordered_thresholds_drop_a_band (h m l c : Q) :
  (m <= l -> fst (determine h m l c) <> Challenge)
  /\ (h <= m -> fst (determine h m l c) <> Monitor).
Proof.
  unfold determine.
  destruct (Py.ge c h) eqn:Eh; [apply ge_true in Eh | apply ge_false in Eh];
  (destruct (Py.ge c m) eqn:Em; [apply ge_true in Em | apply ge_false in Em]);
  (destruct (Py.ge c l) eqn:El; [apply ge_true in El | apply ge_false in El]);
  simpl; split; intros Hord; try discriminate; exfalso; lra.
Qed.

(** X6. A model whose prediction raises is scored like an untrained one
    (0.0 for the classifier, 1.0 for the detector), and whenever the trained
    scores lie in [0, 1] the fused confidence of every analysis lies in
    [0, 1]. *)
Theorem fused_confidence_in_unit_interval
    (self : MLManager.t) (features : Features) (context : string) :
  (forall f q, trained_score (behavior_classifier self) f = Returned q -> 0 <= q <= 1) ->
  (forall f q, trained_score (anomaly_detector self) f = Returned q -> 0 <= q <= 1) ->
  0 <= combined_confidence (analyze_behavior self features context) <= 1
  /\ (forall e, trained_score (behavior_classifier self) features = Raised e ->
        auth_confidence (analyze_behavior self features context) = 0.0)
  /\ (forall e, trained_score (anomaly_detector self) features = Raised e ->
        anomaly_score (analyze_behavior self features context) = 1.0).
Proof.
  intros Hc Hd. unfold analyze_behavior. simpl.
  unfold BehaviorClassifier.predict, AnomalyDetector.predict.
  assert (Ha : 0 <= fst (if negb (is_trained (behavior_classifier self))
                         then (0.0, Some "Model not trained")
                         else match trained_score (behavior_classifier self) features with
                              | Returned confidence => (confidence, None)
                              | Raised e => (0.0, Some e)
                              end) <= 1).
  { destruct (is_trained (behavior_classifier self)); simpl; [|lra].
    destruct (trained_score (behavior_classifier self) features) eqn:E; simpl; [|lra].
    eapply Hc, E. }
  assert (Hb : 0 <= fst (if negb (is_trained (anomaly_detector self))
                         then (1.0, Some "Model not trained")
                         else match trained_score (anomaly_detector self) features with
                              | Returned normalized_score => (normalized_score, None)
                              | Raised e => (1.0, Some e)
                              end) <= 1).
  { destruct (is_trained (anomaly_detector self)); simpl; [|lra].
    destruct (trained_score (anomaly_detector self) features) eqn:E; simpl; [|lra].
    eapply Hd, E. }
  split; [|split].
  - set (a := fst _) in *. set (b := fst _) in Hb |- *. clearbody a b.
    split.
    + apply Qle_shift_div_l; lra.
    + apply Qle_shift_div_r; lra.
  - intros e He. rewrite He. destruct (is_trained (behavior_classifier self)); reflexivity.
  - intros e He. rewrite He. destruct (is_trained (anomaly_detector self)); reflexivity.
Qed.

Lemma fused_confidence_in_unit_interval_witness :
  0 <= combined_confidence
         (analyze_behavior (MLManager.init default_config (constant_model 0.6) (constant_model 0.2))
            ∅ "default") <= 1.
Proof.
  apply (fused_confidence_in_unit_interval
           (MLManager.init default_config (constant_model 0.6) (constant_model 0.2)) ∅ "default").
  - intros f q [= <-]. split; vm_compute; discriminate.
  - intros f q [= <-]. split; vm_compute; discriminate.
Defined.

End DecisionMore.

(* ================================================================== *)
(** * Further properties of the response engine *)
(* ================================================================== *)
Section ActionsMore.

Import ResponseEngine.

(** The loop body of the de-duplication. *)
Definition unique_step (unique_actions : list ResponseAction) (action : ResponseAction)
  : list ResponseAction :=
  if bool_decide (action ∈ unique_actions) then unique_actions
  else unique_actions ++ [action].

Lemma unique_loop_spec (actions : list ResponseAction) :
  forall acc : list ResponseAction,
    NoDup acc ->
    NoDup (fold_left unique_step actions acc)
    /\ (forall a, a ∈ fold_left unique_step actions acc <-> a ∈ acc \/ a ∈ actions)
    /\ exists suffix, fold_left unique_step actions acc = acc ++ suffix.
Proof.
  induction actions as [|x actions IH]; intros acc Hnd; simpl.
  - split; [exact Hnd|]. split.
    + intros a. rewrite elem_of_nil. tauto.
    + exists []. by rewrite app_nil_r.
  - assert (Hstep : NoDup (unique_step acc x)).
    { unfold unique_step. case_bool_decide as Hin; [exact Hnd|].
      apply NoDup_app. split; [exact Hnd|]. split.
      - intros y Hy Hy'. apply list_elem_of_singleton in Hy'. subst y. contradiction.
      - apply NoDup_singleton. }
    destruct (IH (unique_step acc x) Hstep) as (H1 & H2 & [suffix H3]).
    split; [exact H1|]. split.
    + intros a. rewrite H2. unfold unique_step. case_bool_decide as Hin.
      * rewrite elem_of_cons. split; [tauto|]. intros [?|[->|?]]; tauto.
      * rewrite elem_of_app, list_elem_of_singleton, elem_of_cons. tauto.
    + rewrite H3. unfold unique_step. case_bool_decide as Hin.
      * by exists suffix.
      * exists ([x] ++ suffix). by rewrite app_assoc.
Qed.

Lemma unique_spec (actions : list ResponseAction) :
  NoDup (unique actions)
  /\ (forall a, a ∈ unique actions <-> a ∈ actions)
  /\ head (unique actions) = head actions.
Proof.
  change (unique actions) with (fold_left unique_step actions []).
  destruct (unique_loop_spec actions [] (NoDup_nil_2)) as (H1 & H2 & _).
  split; [exact H1|]. split.
  - intros a. rewrite H2, elem_of_nil. tauto.
  - destruct actions as [|x rest]; [reflexivity|]. simpl.
    assert (Hx : unique_step [] x = [x]) by reflexivity. rewrite Hx.
    destruct (unique_loop_spec rest [x] (NoDup_singleton x)) as (_ & _ & [suffix ->]).
    reflexivity.
Qed.

(** X7. "Remove duplicates while preserving order": the result has no
    duplicate, holds exactly the actions of the input, and keeps the input's
    first action in front. *)
Theorem unique_keeps_first_occurrences (actions : list ResponseAction) :
  NoDup (unique actions)
  /\ (forall a, a ∈ unique actions <-> a ∈ actions)
  /\ head (unique actions) = head actions.
Proof. exact (unique_spec actions). Qed.

(** X8. Whatever the severity and the risk factors, the recommended actions
    are never empty and never repeat an action, and the first one is fixed
    by the confidence level alone: continue for 'high', monitor for 'medium',
    the PIN challenge for 'low', logout for anything else. *)
Theorem first_action_by_confidence_level
    (confidence_level : string) (sev : AlertSeverity) (risk_factors : list string) :
  NoDup (_recommend_actions confidence_level sev risk_factors)
  /\ head (_recommend_actions confidence_level sev risk_factors)
     = Some (if String.eqb confidence_level "high" then CONTINUE
             else if String.eqb confidence_level "medium" then MONITOR
             else if String.eqb confidence_level "low" then CHALLENGE_PIN
             else LOGOUT).
Proof.
  unfold _recommend_actions. split; [apply unique_spec|].
  rewrite (proj2 (proj2 (unique_spec _))).
  destruct (String.eqb confidence_level "high");
    [|destruct (String.eqb confidence_level "medium");
      [|destruct (String.eqb confidence_level "low")]];
    destruct sev;
    destruct (Py.str_in "device_fingerprint_mismatch" risk_factors);
    destruct (Py.str_in "unusual_location" risk_factors); reflexivity.
Qed.

(** X9. For a critical alert the recommended actions contain logout, the
    administrator alert and the session lock, in that relative order, for
    every confidence level and every list of risk factors. *)
Theorem critical_actions_in_order (confidence_level : string) (risk_factors : list string) :
  [LOGOUT; ALERT_ADMIN; LOCK_SESSION]
    `sublist_of` _recommend_actions confidence_level CRITICAL risk_factors.
Proof.
  unfold _recommend_actions.
  destruct (String.eqb confidence_level "high");
    [|destruct (String.eqb confidence_level "medium");
      [|destruct (String.eqb confidence_level "low")]];
    destruct (Py.str_in "device_fingerprint_mismatch" risk_factors);
    destruct (Py.str_in "unusual_location" risk_factors);
    vm_compute;
    repeat first [apply sublist_nil_l | apply sublist_skip | apply sublist_cons].
Qed.

End ActionsMore.

Section RiskMore.

Import ResponseEngine.

Lemma str_in_spec (x : string) (xs : list string) : Py.str_in x xs = true <-> x ∈ xs.
Proof.
  unfold Py.str_in. rewrite existsb_exists. split.
  - intros (y & Hy & Heq). apply String.eqb_eq in Heq. subst y. by apply list_elem_of_In.
  - intros Hx. exists x. split; [by apply list_elem_of_In | apply String.eqb_refl].
Qed.

Lemma recommended_elem (confidence_level : string) (sev : AlertSeverity)
    (risk_factors : list string) (a : ResponseAction) :
  a ∈ _recommend_actions confidence_level sev risk_factors
  <-> a ∈ ((if String.eqb confidence_level "high" then [CONTINUE]
            else if String.eqb confidence_level "medium" then [MONITOR; CONTINUE]
            else if String.eqb confidence_level "low" then [CHALLENGE_PIN; MONITOR]
            else [LOGOUT; ALERT_ADMIN])
           ++ match sev with
              | CRITICAL => [LOGOUT; ALERT_ADMIN; LOCK_SESSION]
              | HIGH => [CHALLENGE_BIOMETRIC; RESTRICT_FUNCTIONS]
              | _ => []
              end
           ++ (if Py.str_in "device_fingerprint_mismatch" risk_factors
               then [CHALLENGE_SMS] else [])
           ++ (if Py.str_in "unusual_location" risk_factors
               then [CHALLENGE_BIOMETRIC] else [])).
Proof.
  unfold _recommend_actions.
  rewrite (proj1 (proj2 (unique_spec _)) a).
  destruct sev;
    destruct (Py.str_in "device_fingerprint_mismatch" risk_factors);
    destruct (Py.str_in "unusual_location" risk_factors);
    rewrite ?app_nil_r, <- ?app_assoc; reflexivity.
Qed.

(** X10. Every alert of [analyze_risk] has a severity of low or above (never
    info).  A combined confidence below 0.2 gives a critical alert that
    recommends locking the session; a device mismatch signal gives the factor
    'device_fingerprint_mismatch', a severity of at least high and the SMS
    challenge among the actions. *)
Theorem risk_assessment_floor (ba : MLManager.analysis) (ctx : SecurityContext) :
  severity (analyze_risk ba ctx) <> INFO
  /\ (MLManager.combined_confidence ba < 0.2 ->
      severity (analyze_risk ba ctx) = CRITICAL
      /\ LOCK_SESSION ∈ recommended_actions (analyze_risk ba ctx))
  /\ (device_mismatch ctx = true ->
      "device_fingerprint_mismatch" ∈ risk_factors (analyze_risk ba ctx)
      /\ (severity_rank HIGH <= severity_rank (severity (analyze_risk ba ctx)))%nat
      /\ CHALLENGE_SMS ∈ recommended_actions (analyze_risk ba ctx)).
Proof.
  unfold analyze_risk. simpl.
  set (c := MLManager.combined_confidence ba).
  set (a := MLManager.anomaly_score ba).
  set (fs := identify_risk_factors c a ctx).
  split; [|split].
  - unfold _calculate_severity, adjust_for_risk_factors, adjust_for_anomaly, base_severity.
    destruct (has_critical_factor fs); destruct (Py.gt a 0.8);
      destruct (Py.lt c 0.2); destruct (Py.lt c 0.4); destruct (Py.lt c 0.6); discriminate.
  - intros Hc.
    assert (Hsev : _calculate_severity c a fs = CRITICAL).
    { unfold _calculate_severity, base_severity. apply lt_true in Hc. rewrite Hc.
      unfold adjust_for_anomaly, adjust_for_risk_factors.
      destruct (Py.gt a 0.8); destruct (has_critical_factor fs); reflexivity. }
    split; [exact Hsev|]. rewrite Hsev. apply recommended_elem.
    rewrite !elem_of_app. right. left. set_solver.
  - intros Hd.
    assert (Hin : "device_fingerprint_mismatch" ∈ fs).
    { unfold fs, identify_risk_factors. rewrite Hd. set_solver. }
    split; [exact Hin|]. split.
    + assert (Hcrit : has_critical_factor fs = true)
        by (apply has_critical_factor_spec; by left).
      unfold _calculate_severity, adjust_for_risk_factors. rewrite Hcrit.
      destruct (adjust_for_anomaly a (base_severity c)); simpl; lia.
    + apply recommended_elem. apply str_in_spec in Hin. rewrite Hin.
      rewrite !elem_of_app. right. right. left. set_solver.
Qed.

End RiskMore.

(* ================================================================== *)
(** * Further properties of the challenge manager *)
(* ================================================================== *)
Section ChallengesMore.

Import ChallengeManager ChallengeSweep.

(** X11. A response that the validator accepts, given before expiry to a
    pending challenge, succeeds and marks the challenge completed and
    successful; every later call before expiry, whatever it sends, is answered
    [(True, "Challenge already completed")] and changes nothing. *)
Theorem accepted_response_completes
    (self : t) (cid : string) (c : AuthChallenge) (r later : Response) (now now' : Q) :
  active_challenges self !! cid = Some c ->
  is_completed c = false ->
  now <= expires_at c ->
  now' <= expires_at c ->
  fst (_validate_challenge_response c r) = true ->
  fst (fst (process_challenge_response self cid r now)) = true
  /\ active_challenges (snd (process_challenge_response self cid r now)) !! cid
     = Some (set_outcome c (attempts_remaining c) true true)
  /\ process_challenge_response (snd (process_challenge_response self cid r now)) cid later now'
     = ((true, "Challenge already completed"), snd (process_challenge_response self cid r now)).
Proof.
  intros Hlook Hpending Hnow Hnow' Hok.
  assert (Hstep : process_challenge_response self cid r now
                  = ((true, snd (_validate_challenge_response c r)),
                     store self cid (set_outcome c (attempts_remaining c) true true))).
  { unfold process_challenge_response. rewrite Hlook.
    apply gt_false in Hnow. rewrite Hnow, Hpending.
    destruct (_validate_challenge_response c r) as [ok msg]. simpl in Hok. subst ok.
    reflexivity. }
  rewrite Hstep. simpl. split; [reflexivity|]. split; [apply lookup_insert_eq|].
  apply (completed_replay _ cid (set_outcome c (attempts_remaining c) true true));
    [apply lookup_insert_eq | reflexivity | exact Hnow'].
Qed.

Definition right_pin : Response :=
  {| pin := Some "1234"; expected_pin := Some "1234";
     biometric_data := None; biometric_confidence := None;
     sms_code := None; expected_code := None |}.

Lemma accepted_response_completes_witness :
  fst (fst (process_challenge_response one_pin_challenge "c1" right_pin 5)) = true.
Proof.
  eapply (accepted_response_completes one_pin_challenge "c1" _ right_pin wrong_pin 5 6);
    [reflexivity | reflexivity | vm_compute; discriminate | vm_compute; discriminate
    | reflexivity].
Defined.

(** X12. A call after [expires_at] is answered "Challenge expired", even for
    a completed challenge, and removes the challenge; the next call on the same
    id is answered "Challenge not found or expired" and changes nothing. *)
Theorem expired_challenge_is_reclaimed
    (self : t) (cid : string) (c : AuthChallenge) (r later : Response) (now now' : Q) :
  active_challenges self !! cid = Some c ->
  expires_at c < now ->
  process_challenge_response self cid r now
  = ((false, "Challenge expired"), _cleanup_challenge self cid)
  /\ active_challenges (_cleanup_challenge self cid) !! cid = None
  /\ process_challenge_response (_cleanup_challenge self cid) cid later now'
     = ((false, "Challenge not found or expired"), _cleanup_challenge self cid).
Proof.
  intros Hlook Hnow.
  assert (Hgone : active_challenges (_cleanup_challenge self cid) !! cid = None)
    by (unfold _cleanup_challenge; simpl; apply lookup_delete_eq).
  split; [|split; [exact Hgone|]].
  - unfold process_challenge_response. rewrite Hlook.
    apply gt_true in Hnow. rewrite Hnow. reflexivity.
  - unfold process_challenge_response. rewrite Hgone. reflexivity.
Qed.

Lemma expired_challenge_is_reclaimed_witness :
  process_challenge_response one_pin_challenge "c1" right_pin 301
  = ((false, "Challenge expired"), _cleanup_challenge one_pin_challenge "c1").
Proof.
  eapply (expired_challenge_is_reclaimed one_pin_challenge "c1" _ right_pin right_pin 301 302);
    [reflexivity | vm_compute; reflexivity].
Defined.

(** X13. [process_challenge_response] only ever touches the challenge it is
    called for: every other stored challenge is as before, and the attempt
    limit and the timeout of the manager are unchanged. *)
Theorem response_touches_one_challenge
    (self : t) (cid other : string) (r : Response) (now : Q) :
  other <> cid ->
  active_challenges (snd (process_challenge_response self cid r now)) !! other
  = active_challenges self !! other
  /\ max_attempts (snd (process_challenge_response self cid r now)) = max_attempts self
  /\ challenge_timeout (snd (process_challenge_response self cid r now))
     = challenge_timeout self.
Proof.
  intros Hne. unfold process_challenge_response.
  destruct (active_challenges self !! cid) as [c|]; [|repeat split].
  destruct (Py.gt now (expires_at c)).
  { simpl. split; [apply lookup_delete_ne; congruence | split; reflexivity]. }
  destruct (is_completed c); [repeat split|].
  destruct (_validate_challenge_response c r) as [[|] msg];
    [|destruct (attempts_remaining c - 1 <=? 0)%Z]; simpl;
    (split; [apply lookup_insert_ne; congruence | split; reflexivity]).
Qed.

Lemma response_touches_one_challenge_witness :
  active_challenges (snd (process_challenge_response one_pin_challenge "c1" wrong_pin 1))
    !! "c2"
  = active_challenges one_pin_challenge !! "c2".
Proof.
  apply (response_touches_one_challenge one_pin_challenge "c1" "c2" wrong_pin 1).
  discriminate.
Defined.

End ChallengesMore.

(** ** Deleting a list of keys from a dict *)
Section DeleteAll.

Context {V : Type}.

Definition delete_all (ks : list string) (m : gmap string V) : gmap string V :=
  fold_left (fun acc k => delete k acc) ks m.

Lemma delete_all_lookup (ks : list string) :
  forall (m : gmap string V) (j : string),
    delete_all ks m !! j = if bool_decide (j ∈ ks) then None else m !! j.
Proof.
  induction ks as [|k ks IH]; intros m j.
  - rewrite bool_decide_eq_false_2 by apply not_elem_of_nil. reflexivity.
  - change (delete_all (k :: ks) m) with (delete_all ks (delete k m)). rewrite IH.
    destruct (decide (j ∈ ks)) as [Hin|Hnin].
    + rewrite !bool_decide_eq_true_2; [reflexivity | by apply list_elem_of_further | exact Hin].
    + rewrite (bool_decide_eq_false_2 _ Hnin).
      destruct (decide (j = k)) as [->|Hne].
      * rewrite lookup_delete_eq, bool_decide_eq_true_2 by apply list_elem_of_here.
        reflexivity.
      * rewrite lookup_delete_ne by congruence.
        rewrite bool_decide_eq_false_2; [reflexivity|].
        intros [?|?]%elem_of_cons; contradiction.
Qed.

Lemma delete_all_size (ks : list string) :
  forall m : gmap string V,
    NoDup ks ->
    (forall k, k ∈ ks -> is_Some (m !! k)) ->
    (length ks + size (delete_all ks m))%nat = size m.
Proof.
  induction ks as [|k ks IH]; intros m Hnd Hin; [reflexivity|].
  apply NoDup_cons in Hnd as [Hk Hnd].
  change (delete_all (k :: ks) m) with (delete_all ks (delete k m)).
  assert (Hsome : is_Some (m !! k)) by (apply Hin, list_elem_of_here).
  assert (Hrest : (length ks + size (delete_all ks (delete k m)))%nat = size (delete k m)).
  { apply IH; [exact Hnd|]. intros k' Hk'.
    rewrite lookup_delete_ne by (intros ->; contradiction).
    apply Hin. by apply list_elem_of_further. }
  rewrite map_size_delete_Some in Hrest by exact Hsome.
  destruct Hsome as [v Hv].
  assert (size m <> 0)%nat by (apply (map_size_ne_0_lookup_2 m k); eauto).
  simpl length. lia.
Qed.

Lemma selected_keys_spec (P : string * V -> Prop) `{!forall x, base.Decision (P x)}
    (m : gmap string V) (j : string) :
  j ∈ (filter P (map_to_list m)).*1 <-> exists v, m !! j = Some v /\ P (j, v).
Proof.
  rewrite list_elem_of_fmap. split.
  - intros ([k v] & -> & Hin). apply list_elem_of_filter in Hin as [HP Hin].
    apply elem_of_map_to_list in Hin. eauto.
  - intros (v & Hv & HP). exists (j, v). split; [reflexivity|].
    apply list_elem_of_filter. split; [exact HP | by apply elem_of_map_to_list].
Qed.

Lemma selected_keys_NoDup (P : string * V -> Prop) `{!forall x, base.Decision (P x)}
    (m : gmap string V) :
  NoDup ((filter P (map_to_list m)).*1).
Proof.
  eapply sublist_NoDup; [apply (NoDup_fst_map_to_list m)|].
  apply fmap_sublist, sublist_filter.
Qed.

End DeleteAll.

Section ChallengeSweeps.

Import ChallengeManager ChallengeSweep.

Lemma cleanup_fold (ks : list string) :
  forall self : t,
    active_challenges (fold_left _cleanup_challenge ks self)
    = delete_all ks (active_challenges self)
    /\ max_attempts (fold_left _cleanup_challenge ks self) = max_attempts self
    /\ challenge_timeout (fold_left _cleanup_challenge ks self) = challenge_timeout self.
Proof.
  induction ks as [|k ks IH]; intros self; [repeat split|].
  simpl. destruct (IH (_cleanup_challenge self k)) as (-> & -> & ->). repeat split.
Qed.

Lemma cleanup_lookup (self : t) (now : Q) (cid : string) :
  active_challenges (snd (cleanup_expired_challenges self now)) !! cid
  = match active_challenges self !! cid with
    | Some c => if reclaimable now c then None else Some c
    | None => None
    end.
Proof.
  unfold cleanup_expired_challenges. simpl.
  rewrite (proj1 (cleanup_fold _ self)), delete_all_lookup.
  case_bool_decide as Hin.
  - apply selected_keys_spec in Hin as (c & -> & Hc). simpl in Hc.
    destruct (reclaimable now c); [reflexivity | contradiction].
  - destruct (active_challenges self !! cid) as [c|] eqn:E; [|reflexivity].
    destruct (reclaimable now c) eqn:Er; [|reflexivity].
    exfalso. apply Hin. apply selected_keys_spec. exists c. split; [exact E|].
    simpl. by rewrite Er.
Qed.

(** X14. The sweep removes exactly the challenges that are completed or past
    their expiry at the sweep's clock reading and keeps every other one
    unchanged; the count it returns is the number of challenges removed. *)
Theorem challenge_sweep_removes_the_finished (self : t) (now : Q) :
  (forall cid c,
      active_challenges (snd (cleanup_expired_challenges self now)) !! cid = Some c
      <-> active_challenges self !! cid = Some c
          /\ is_completed c = false /\ now <= expires_at c)
  /\ (fst (cleanup_expired_challenges self now)
      + size (active_challenges (snd (cleanup_expired_challenges self now))))%nat
     = size (active_challenges self).
Proof.
  split.
  - intros cid c. rewrite cleanup_lookup.
    destruct (active_challenges self !! cid) as [c'|]; [|split; [discriminate | intros [? _]; discriminate]].
    unfold reclaimable.
    destruct (Py.gt now (expires_at c')) eqn:Eg;
      [apply gt_true in Eg | apply gt_false in Eg];
      destruct (is_completed c') eqn:Ec; simpl; split;
      try discriminate;
      try (intros [[= <-] [Hc Ht]]; try congruence; exfalso; lra).
    intros [= <-]. repeat split; assumption.
  - unfold cleanup_expired_challenges. simpl.
    rewrite (proj1 (cleanup_fold _ self)).
    apply delete_all_size.
    + apply selected_keys_NoDup.
    + intros k Hk. apply selected_keys_spec in Hk as (c & -> & _). eauto.
Qed.

(** The attempt counter of a stored challenge is consistent: never negative,
    and positive while the challenge is pending. *)
Definition attempts_consistent (self : t) : Prop :=
  forall cid c,
    active_challenges self !! cid = Some c ->
    (0 <= attempts_remaining c)%Z
    /\ (is_completed c = false -> (1 <= attempts_remaining c)%Z).

Lemma step_consistent (self : t) (o : op) :
  (1 <= max_attempts self)%Z ->
  attempts_consistent self ->
  attempts_consistent (step self o) /\ max_attempts (step self o) = max_attempts self.
Proof.
  intros Hmax Hinv. destruct o as [ty uid sid uuid now1 now2 | cid r now | now].
  - split; [|reflexivity]. intros cid c. simpl.
    destruct (decide (uuid = cid)) as [->|Hne].
    + rewrite lookup_insert_eq. intros [= <-]. simpl. lia.
    + rewrite lookup_insert_ne by assumption. apply Hinv.
  - simpl. split.
    + intros cid' c'. unfold process_challenge_response.
      destruct (active_challenges self !! cid) as [c|] eqn:E; [|apply Hinv].
      destruct (Hinv cid c E) as [H0 H1].
      destruct (Py.gt now (expires_at c)).
      { simpl. destruct (decide (cid = cid')) as [->|Hne].
        - rewrite lookup_delete_eq. discriminate.
        - rewrite lookup_delete_ne by assumption. apply Hinv. }
      destruct (is_completed c) eqn:Ec; [apply Hinv|].
      specialize (H1 eq_refl).
      destruct (_validate_challenge_response c r) as [[|] msg];
        [|destruct (attempts_remaining c - 1 <=? 0)%Z eqn:El;
          [apply Z.leb_le in El | apply Z.leb_gt in El]]; simpl;
        (destruct (decide (cid = cid')) as [->|Hne];
         [rewrite lookup_insert_eq; intros [= <-]; simpl; split; [lia | intros; try discriminate; lia]
         |rewrite lookup_insert_ne by assumption; apply Hinv]).
    + unfold process_challenge_response.
      destruct (active_challenges self !! cid) as [c|]; [|reflexivity].
      destruct (Py.gt now (expires_at c)); [reflexivity|].
      destruct (is_completed c); [reflexivity|].
      destruct (_validate_challenge_response c r) as [[|] msg];
        [|destruct (attempts_remaining c - 1 <=? 0)%Z]; reflexivity.
  - change (step self (Cleanup now)) with (snd (cleanup_expired_challenges self now)).
    split.
    + intros cid c. rewrite cleanup_lookup.
      destruct (active_challenges self !! cid) as [c'|] eqn:E; [|discriminate].
      destruct (reclaimable now c'); [discriminate|]. intros [= <-]. eapply Hinv, E.
    + unfold cleanup_expired_challenges. simpl. apply cleanup_fold.
Qed.

(** X15. Starting from a new manager whose attempt limit is at least 1, after
    any sequence of challenge creations, responses and sweeps every stored
    challenge has a non-negative [attempts_remaining], and a pending one has at
    least one attempt left. *)
Theorem attempts_never_negative (config : Cfg.Config) (ops : list op) (cid : string)
    (c : AuthChallenge) :
  (1 <= max_attempts (init config))%Z ->
  active_challenges (ChallengeSweep.run (init config) ops) !! cid = Some c ->
  (0 <= attempts_remaining c)%Z
  /\ (is_completed c = false -> (1 <= attempts_remaining c)%Z).
Proof.
  intros Hmax.
  assert (Hgen : forall ops self,
             (1 <= max_attempts self)%Z -> attempts_consistent self ->
             attempts_consistent (ChallengeSweep.run self ops)).
  { clear. induction ops as [|o ops IH]; intros self Hmax Hinv; [exact Hinv|].
    simpl. destruct (step_consistent self o Hmax Hinv) as [Hinv' Hmax'].
    apply IH; [rewrite Hmax'; exact Hmax | exact Hinv']. }
  apply (Hgen ops (init config) Hmax).
  intros cid' c'. unfold init. simpl. rewrite lookup_empty. discriminate.
Qed.

Lemma attempts_never_negative_witness :
  (0 <= attempts_remaining
          (set_outcome
             {| challenge_id := "c1"; challenge_type := "pin"; user_id := "alice";
                session_id := "s1"; created_at := 0; expires_at := 0 + 300;
                attempts_remaining := 3; is_completed := false; is_successful := false |}
             2 false false))%Z.
Proof.
  apply (attempts_never_negative default_config
           [Create "pin" "alice" "s1" "c1" 0 0; Respond "c1" wrong_pin 1] "c1");
    [vm_compute; discriminate | reflexivity].
Defined.

End ChallengeSweeps.

Section ValidatorsMore.

Import ChallengeManager.

(** X16. The validators accept exactly these responses: for a 'pin'
    challenge a non-empty pin equal to the expected pin; for 'biometric'
    non-empty biometric data with a confidence of at least 0.8; for 'sms' a
    non-empty code equal to the expected code.  A challenge of any other type
    accepts nothing, and a response without the needed entry is rejected. *)
Theorem validators_accept_exactly (c : AuthChallenge) (r : Response) :
  fst (_validate_challenge_response c r) = true
  <-> (challenge_type c = "pin"
       /\ Py.get_str (pin r) <> ""
       /\ Py.get_str (pin r) = Py.get_str (expected_pin r))
      \/ (challenge_type c = "biometric"
          /\ Py.truthy (biometric_data r) = true
          /\ 0.8 <= default 0.0 (biometric_confidence r))
      \/ (challenge_type c = "sms"
          /\ Py.get_str (sms_code r) <> ""
          /\ Py.get_str (sms_code r) = Py.get_str (expected_code r)).
Proof.
  unfold _validate_challenge_response.
  destruct (String.eqb_spec (challenge_type c) "pin") as [Hp|Hp].
  { unfold _validate_pin_challenge.
    destruct (String.eqb_spec (Py.get_str (pin r)) "") as [He|He];
      [|destruct (String.eqb_spec (Py.get_str (pin r)) (Py.get_str (expected_pin r)))];
      simpl; split; try discriminate; try tauto;
      intros [(_ & ? & ?)|[(Hc & _)|(Hc & _)]]; try contradiction;
      rewrite Hp in Hc; discriminate. }
  destruct (String.eqb_spec (challenge_type c) "biometric") as [Hb|Hb].
  { unfold _validate_biometric_challenge.
    destruct (Py.truthy (biometric_data r)) eqn:Et; simpl;
      [destruct (Py.ge (default 0.0 (biometric_confidence r)) 0.8) eqn:Eg;
       [apply ge_true in Eg | apply ge_false in Eg]|];
      simpl; split; try discriminate; try tauto;
      intros [(Hc & _)|[(_ & ? & ?)|(Hc & _)]]; try congruence; try lra. }
  destruct (String.eqb_spec (challenge_type c) "sms") as [Hs|Hs].
  { unfold _validate_sms_challenge.
    destruct (String.eqb_spec (Py.get_str (sms_code r)) "") as [He|He];
      [|destruct (String.eqb_spec (Py.get_str (sms_code r)) (Py.get_str (expected_code r)))];
      simpl; split; try discriminate; try tauto;
      intros [(Hc & _)|[(Hc & _)|(_ & ? & ?)]]; try contradiction; congruence. }
  simpl. split; [discriminate|]. intros [(Hc & _)|[(Hc & _)|(Hc & _)]]; contradiction.
Qed.

End ValidatorsMore.

(* ================================================================== *)
(** * Further properties of the session registry *)
(* ================================================================== *)
Section SessionsMore.

Import SessionManager.

Lemma validate_session_cases (self : t) (sid : string) (fp ip : option string)
    (t_exp t_idle t_upd : Q) :
  match active_sessions self !! sid with
  | None => validate_session self sid fp ip t_exp t_idle t_upd = (None, self)
  | Some token =>
      if Py.lt t_exp (expires_at token)
         && negb (Py.gt (t_idle - last_activity token) (idle_timeout self))
         && negb (mismatch fp (device_fingerprint token))
      then validate_session self sid fp ip t_exp t_idle t_upd
           = (Some (update_activity token t_upd),
              with_sessions self
                (<[sid := update_activity token t_upd]> (active_sessions self)))
      else validate_session self sid fp ip t_exp t_idle t_upd
           = (None, with_sessions self (delete sid (active_sessions self)))
  end.
Proof.
  unfold validate_session, invalidate_session, is_expired, is_valid.
  destruct (active_sessions self !! sid) as [token|] eqn:E; [|reflexivity].
  destruct (Py.lt t_exp (expires_at token)); simpl; [|reflexivity].
  destruct (Py.gt (t_idle - last_activity token) (idle_timeout self)); simpl; [reflexivity|].
  destruct (mismatch fp (device_fingerprint token)); simpl; [reflexivity|].
  destruct (mismatch ip (ip_address token)); reflexivity.
Qed.

(** X17. [validate_session] returns a token exactly when the session is
    stored, the clock is strictly before [expires_at], the idle time does not
    exceed the idle timeout (the bound itself is still valid) and no
    fingerprint mismatch is seen; the token returned is the stored one with
    [last_activity] set to the current clock reading. *)
Theorem validate_session_accepts_exactly
    (self : t) (sid : string) (fp ip : option string) (t_exp t_idle t_upd : Q)
    (result : SessionToken) :
  fst (validate_session self sid fp ip t_exp t_idle t_upd) = Some result
  <-> exists token,
        active_sessions self !! sid = Some token
        /\ t_exp < expires_at token
        /\ t_idle - last_activity token <= idle_timeout self
        /\ mismatch fp (device_fingerprint token) = false
        /\ result = update_activity token t_upd.
Proof.
  pose proof (validate_session_cases self sid fp ip t_exp t_idle t_upd) as Hc.
  split.
  - intros Hres. destruct (active_sessions self !! sid) as [token|] eqn:E.
    + destruct (_ && _) eqn:Econd; rewrite Hc in Hres; simpl in Hres; [|discriminate].
      injection Hres as <-.
      apply andb_true_iff in Econd as [Econd E3].
      apply andb_true_iff in Econd as [E1 E2].
      apply negb_true_iff in E2, E3. apply lt_true in E1. apply gt_false in E2.
      exists token. repeat split; assumption.
    + rewrite Hc in Hres. discriminate.
  - intros (token & Hl & H1 & H2 & H3 & ->). rewrite Hl in Hc.
    apply lt_true in H1. apply gt_false in H2. rewrite H1, H2, H3 in Hc. simpl in Hc.
    by rewrite Hc.
Qed.

(** X18. Becoming invalid is terminal: once [validate_session] has answered
    [None] for a session id, every later validation of that id, with any
    fingerprint, address and clock, answers [None] as well. *)
Theorem invalid_session_stays_invalid
    (self : t) (sid : string) (fp ip fp' ip' : option string)
    (t_exp t_idle t_upd t_exp' t_idle' t_upd' : Q) :
  fst (validate_session self sid fp ip t_exp t_idle t_upd) = None ->
  fst (validate_session (snd (validate_session self sid fp ip t_exp t_idle t_upd))
         sid fp' ip' t_exp' t_idle' t_upd') = None.
Proof.
  pose proof (validate_session_cases self sid fp ip t_exp t_idle t_upd) as Hc.
  intros Hnone.
  assert (Hgone : active_sessions (snd (validate_session self sid fp ip t_exp t_idle t_upd))
                    !! sid = None).
  { destruct (active_sessions self !! sid) as [token|] eqn:E.
    - destruct (_ && _); rewrite Hc in Hnone |- *; simpl in *; [discriminate|].
      apply lookup_delete_eq.
    - rewrite Hc. exact E. }
  pose proof (validate_session_cases
                (snd (validate_session self sid fp ip t_exp t_idle t_upd))
                sid fp' ip' t_exp' t_idle' t_upd') as Hc'.
  rewrite Hgone in Hc'. by rewrite Hc'.
Qed.

Lemma invalid_session_stays_invalid_witness :
  fst (validate_session
         (snd (validate_session alice_sessions "s1" (Some "laptop") None 2000 2000 2000))
         "s1" (Some "laptop") None 10 10 10) = None.
Proof.
  apply (invalid_session_stays_invalid alice_sessions "s1"
           (Some "laptop") None (Some "laptop") None 2000 2000 2000 10 10 10).
  reflexivity.
Defined.

(** X19. [invalidate_session] answers [True] exactly for a stored session;
    afterwards the session is gone and every other session is unchanged; a
    second call answers [False] and changes nothing. *)
Theorem invalidate_session_removes_once (self : t) (sid : string) :
  (fst (invalidate_session self sid) = true <-> is_Some (active_sessions self !! sid))
  /\ active_sessions (snd (invalidate_session self sid)) !! sid = None
  /\ (forall other, other <> sid ->
        active_sessions (snd (invalidate_session self sid)) !! other
        = active_sessions self !! other)
  /\ invalidate_session (snd (invalidate_session self sid)) sid
     = (false, snd (invalidate_session self sid)).
Proof.
  assert (Hgone : active_sessions (snd (invalidate_session self sid)) !! sid = None)
    by apply invalidate_removes.
  split; [|split; [exact Hgone|split]].
  - unfold invalidate_session. destruct (active_sessions self !! sid) eqn:E; simpl.
    + split; eauto.
    + split; [discriminate | intros [? ?]; discriminate].
  - intros other Hne. unfold invalidate_session.
    destruct (active_sessions self !! sid); simpl; [|reflexivity].
    apply lookup_delete_ne. congruence.
  - unfold invalidate_session at 1. rewrite Hgone. reflexivity.
Qed.

End SessionsMore.

Section SessionSweeps.

Import SessionManager SessionSweep.

Lemma invalidate_fold (ks : list string) :
  forall self : t,
    active_sessions
      (fold_left (fun st session_id => snd (invalidate_session st session_id)) ks self)
    = delete_all ks (active_sessions self)
    /\ idle_timeout
         (fold_left (fun st session_id => snd (invalidate_session st session_id)) ks self)
       = idle_timeout self.
Proof.
  induction ks as [|k ks IH]; intros self; [split; reflexivity|].
  simpl. destruct (IH (snd (invalidate_session self k))) as [-> ->].
  unfold invalidate_session.
  destruct (active_sessions self !! k) eqn:E; simpl; [split; reflexivity|].
  split; [|reflexivity]. unfold delete_all. simpl. by rewrite (delete_id _ _ E).
Qed.

(** X20. The session sweep removes exactly the sessions that, at the clock
    readings taken for them, are expired or idle beyond the idle timeout, keeps
    the others unchanged, and returns the number of sessions removed. *)
Theorem session_sweep_removes_the_stale (self : t) (clock : string -> Q * Q) :
  (forall sid token,
      active_sessions (snd (cleanup_expired_sessions self clock)) !! sid = Some token
      <-> active_sessions self !! sid = Some token
          /\ fst (clock sid) < expires_at token
          /\ snd (clock sid) - last_activity token <= idle_timeout self)
  /\ (fst (cleanup_expired_sessions self clock)
      + size (active_sessions (snd (cleanup_expired_sessions self clock))))%nat
     = size (active_sessions self).
Proof.
  unfold cleanup_expired_sessions. simpl.
  rewrite (proj1 (invalidate_fold _ self)). split.
  - intros sid token. rewrite delete_all_lookup.
    assert (Hstale : forall tok, stale self clock (sid, tok) = false
                       <-> fst (clock sid) < expires_at tok
                           /\ snd (clock sid) - last_activity tok <= idle_timeout self).
    { intros tok. unfold stale, is_expired, is_valid. simpl.
      rewrite orb_false_iff, negb_false_iff, lt_true, gt_false. reflexivity. }
    case_bool_decide as Hin.
    + apply selected_keys_spec in Hin as (tok & Hl & Hs). simpl in Hs.
      split; [discriminate|]. intros (Hl' & H1 & H2).
      rewrite Hl in Hl'. injection Hl' as <-.
      assert (stale self clock (sid, tok) = false) by (apply Hstale; split; assumption).
      destruct (stale self clock (sid, tok)); [discriminate | contradiction].
    + split.
      * intros Hl. split; [exact Hl|]. apply Hstale.
        destruct (stale self clock (sid, token)) eqn:Es; [|reflexivity].
        exfalso. apply Hin, selected_keys_spec. exists token. split; [exact Hl|].
        simpl. by rewrite Es.
      * intros (Hl & _). exact Hl.
  - apply delete_all_size.
    + apply selected_keys_NoDup.
    + intros k Hk. apply selected_keys_spec in Hk as (c & -> & _). eauto.
Qed.

(** X21. A session that [SecurityManager.validate_session] reports valid
    never carries [requires_additional_auth] and never the level 'high': a
    fingerprint mismatch has already invalidated the session, and the address
    and age terms alone keep the risk score below 0.5. *)
Theorem valid_session_never_requires_additional_auth
    (sec : SecurityManager.t) (sid : string) (fp ip : option string)
    (t_exp t_idle t_upd t_age : Q) (info : SecurityManager.session_info) :
  snd (fst (SecurityManager.validate_session sec sid fp ip t_exp t_idle t_upd t_age))
  = Some info ->
  SecurityManager.info_requires_additional_auth info = false
  /\ SecurityManager.info_risk_score info < 0.5
  /\ SecurityManager.info_security_level info <> SL_HIGH.
Proof.
  unfold SecurityManager.validate_session.
  pose proof (validate_session_cases (SecurityManager.session_manager sec)
                sid fp ip t_exp t_idle t_upd) as Hc.
  destruct (active_sessions (SecurityManager.session_manager sec) !! sid) as [token|];
    [|rewrite Hc; discriminate].
  destruct (_ && _) eqn:Econd; rewrite Hc; [|discriminate].
  apply andb_true_iff in Econd as [_ E3]. apply negb_true_iff in E3.
  simpl. intros [= <-]. simpl.
  unfold SecurityManager._assess_session_security. simpl. rewrite E3.
  destruct (mismatch ip (ip_address token));
    destruct (Py.gt (t_age - created_at token) 3600);
    vm_compute; repeat split; discriminate.
Qed.

Lemma valid_session_never_requires_additional_auth_witness :
  exists info,
    snd (fst (SecurityManager.validate_session alice_security "s1"
                (Some "laptop") (Some "10.0.0.2") 10 10 10 4000)) = Some info
    /\ SecurityManager.info_requires_additional_auth info = false.
Proof.
  eexists. split; [reflexivity|].
  eapply (valid_session_never_requires_additional_auth alice_security "s1"
            (Some "laptop") (Some "10.0.0.2") 10 10 10 4000). reflexivity.
Defined.

End SessionSweeps.

(* ================================================================== *)
(** * Failed attempts and lock-out *)
(* ================================================================== *)
Section LockOut.

Import FailedAttempts.

Lemma filter_all_true {A} (f : A -> bool) (l : list A) :
  (forall x, In x l -> f x = true) -> List.filter f l = l.
Proof.
  induction l as [|x l IH]; intros H; [reflexivity|]. simpl.
  rewrite (H x (or_introl eq_refl)). f_equal. apply IH. intros y Hy. apply H. by right.
Qed.

Lemma filter_all_false {A} (f : A -> bool) (l : list A) :
  (forall x, In x l -> f x = false) -> List.filter f l = [].
Proof.
  induction l as [|x l IH]; intros H; [reflexivity|]. simpl.
  rewrite (H x (or_introl eq_refl)). apply IH. intros y Hy. apply H. by right.
Qed.

Lemma filter_idempotent {A} (f : A -> bool) (l : list A) :
  List.filter f (List.filter f l) = List.filter f l.
Proof.
  apply filter_all_true. intros x Hx. by apply List.filter_In in Hx as [_ ?].
Qed.

Lemma record_lookup (self : t) (user_id reason : string) (now : Q) :
  failed_attempts (snd (record_authentication_failure self user_id reason now)) !! user_id
  = Some (recent self now (default [] (failed_attempts self !! user_id) ++ [now]))
  /\ max_failed_attempts (snd (record_authentication_failure self user_id reason now))
     = max_failed_attempts self
  /\ lockout_duration (snd (record_authentication_failure self user_id reason now))
     = lockout_duration self
  /\ fst (record_authentication_failure self user_id reason now)
     = (max_failed_attempts self
        <=? Z.of_nat (length (recent self now
                                (default [] (failed_attempts self !! user_id) ++ [now]))))%Z.
Proof.
  unfold record_authentication_failure.
  destruct (_ <=? _)%Z; simpl; rewrite lookup_insert_eq; repeat split.
Qed.

Lemma record_answer_is_state (self : t) (user_id reason : string) (now : Q) :
  _is_user_locked_out (snd (record_authentication_failure self user_id reason now))
    user_id now
  = fst (record_authentication_failure self user_id reason now).
Proof.
  destruct (record_lookup self user_id reason now) as (Hl & Hm & Hd & Hr).
  unfold _is_user_locked_out. rewrite Hl, Hm, Hr.
  unfold recent at 1. rewrite Hd.
  change (List.filter (fun t0 => Py.lt (now - t0) (lockout_duration self))
            (recent self now (default [] (failed_attempts self !! user_id) ++ [now])))
    with (recent self now (recent self now
            (default [] (failed_attempts self !! user_id) ++ [now]))).
  unfold recent. by rewrite filter_idempotent.
Qed.

(** X22. The answer of [record_authentication_failure] is the lock-out state
    it leaves behind: [_is_user_locked_out] asked at the same clock reading
    gives the same answer; and the failures of one user never change whether
    another user is locked out. *)
Theorem failure_answer_is_lockout_state
    (self : t) (user_id reason : string) (now : Q) :
  _is_user_locked_out (snd (record_authentication_failure self user_id reason now))
    user_id now
  = fst (record_authentication_failure self user_id reason now)
  /\ (forall other q, other <> user_id ->
        _is_user_locked_out (snd (record_authentication_failure self user_id reason now))
          other q
        = _is_user_locked_out self other q).
Proof.
  split; [apply record_answer_is_state|].
  destruct (record_lookup self user_id reason now) as (Hl & Hm & Hd & Hr).
  intros other q Hne. unfold _is_user_locked_out, recent. rewrite Hm, Hd.
  unfold record_authentication_failure.
  destruct (_ <=? _)%Z; simpl; rewrite lookup_insert_ne by congruence; reflexivity.
Qed.

(** Every two of the given times are less than the lock-out duration apart. *)
Definition within_window (self : t) (times : list Q) : Prop :=
  forall t1 t2, In t1 times -> In t2 times -> t2 - t1 < lockout_duration self.

Lemma record_all_below_limit (user_id reason : string) (times : list Q) :
  forall (self : t) (before : list Q),
    default [] (failed_attempts self !! user_id) = before ->
    within_window self (before ++ times) ->
    (Z.of_nat (length (before ++ times)) < max_failed_attempts self)%Z ->
    Forall (fun r => r = false) (fst (record_all self user_id reason times))
    /\ default [] (failed_attempts (snd (record_all self user_id reason times)) !! user_id)
       = before ++ times
    /\ max_failed_attempts (snd (record_all self user_id reason times))
       = max_failed_attempts self
    /\ lockout_duration (snd (record_all self user_id reason times)) = lockout_duration self.
Proof.
  induction times as [|now rest IH]; intros self before Hb Hw Hlen.
  - simpl. rewrite app_nil_r. repeat split; [constructor | exact Hb].
  - simpl record_all.
    destruct (record_lookup self user_id reason now) as (Hl & Hm & Hd & Hr).
    assert (Hkeep : recent self now (before ++ [now]) = before ++ [now]).
    { apply filter_all_true. intros x Hx. apply lt_true. apply Hw.
      - apply in_app_iff in Hx as [Hx|[<-|[]]]; apply in_app_iff;
          [left; exact Hx | right; by left].
      - apply in_app_iff. right. by left. }
    rewrite Hb, Hkeep in Hl, Hr.
    destruct (record_authentication_failure self user_id reason now) as [r self'] eqn:Er.
    simpl in Hl, Hm, Hd, Hr.
    assert (Hr' : r = false).
    { rewrite Hr. apply Z.leb_gt. rewrite !length_app in *. simpl in *. lia. }
    specialize (IH self' (before ++ [now])).
    rewrite Hl, Hm, Hd, <- app_assoc in IH. simpl in IH.
    assert (Hw' : within_window self' (before ++ now :: rest))
      by (unfold within_window; rewrite Hd; exact Hw).
    destruct (IH eq_refl Hw' Hlen) as (H1 & H2 & H3 & H4).
    destruct (record_all self' user_id reason rest) as [rs self''].
    simpl in *. repeat split; try assumption. constructor; assumption.
Qed.

(** X23. From a new manager with the limit [max_failed_attempts = N >= 1]:
    for failures of one user whose times all lie within one lock-out window,
    the first N - 1 are answered [False] and the Nth is answered [True], after
    which the user is locked out. *)
Theorem nth_failure_locks_out
    (config : Cfg.Config) (user_id reason : string) (times : list Q) (last : Q) :
  (1 <= max_failed_attempts (init config))%Z ->
  Z.of_nat (length times) = (max_failed_attempts (init config) - 1)%Z ->
  within_window (init config) (times ++ [last]) ->
  Forall (fun r => r = false) (fst (record_all (init config) user_id reason times))
  /\ fst (record_authentication_failure
            (snd (record_all (init config) user_id reason times)) user_id reason last)
     = true
  /\ _is_user_locked_out
       (snd (record_authentication_failure
               (snd (record_all (init config) user_id reason times)) user_id reason last))
       user_id last = true.
Proof.
  intros Hmax Hlen Hw.
  destruct (record_all_below_limit user_id reason times (init config) [] eq_refl)
    as (H1 & H2 & H3 & H4).
  { intros t1 t2 Ht1 Ht2. apply Hw; apply in_app_iff; by left. }
  { change ([] ++ times) with times. lia. }
  simpl in H2.
  set (st := snd (record_all (init config) user_id reason times)) in *.
  assert (Hlast : fst (record_authentication_failure st user_id reason last) = true).
  { destruct (record_lookup st user_id reason last) as (_ & _ & _ & ->).
    rewrite H2, H3.
    assert (Hkeep : recent st last (times ++ [last]) = times ++ [last]).
    { apply filter_all_true. intros x Hx. apply lt_true. rewrite H4. apply Hw.
      - exact Hx.
      - apply in_app_iff. right. by left. }
    rewrite Hkeep, length_app. simpl length. apply Z.leb_le. lia. }
  split; [exact H1|]. split; [exact Hlast|].
  rewrite record_answer_is_state. exact Hlast.
Qed.

End LockOut.

Section LockOutMore.

Import FailedAttempts.

Lemma nth_failure_locks_out_witness :
  fst (record_authentication_failure
         (snd (record_all (init default_config) "alice" "bad pin" [1; 2]))
         "alice" "bad pin" 3) = true.
Proof.
  apply (nth_failure_locks_out default_config "alice" "bad pin" [1; 2] 3).
  - vm_compute. discriminate.
  - reflexivity.
  - intros t1 t2 H1 H2. simpl in H1, H2.
    destruct H1 as [<-|[<-|[<-|[]]]]; destruct H2 as [<-|[<-|[<-|[]]]]; vm_compute; reflexivity.
Defined.

(** X24. The lock-out ends by itself: once every recorded failure of a user
    is at least [lockout_duration] old, the user is not locked out (for a limit
    of at least 1), and a user without recorded failures never is. *)
Theorem lockout_expires (self : t) (user_id : string) (now : Q) :
  (1 <= max_failed_attempts self)%Z ->
  (forall t0, In t0 (default [] (failed_attempts self !! user_id)) ->
     lockout_duration self <= now - t0) ->
  _is_user_locked_out self user_id now = false.
Proof.
  intros Hmax Hold. unfold _is_user_locked_out.
  destruct (failed_attempts self !! user_id) as [ts|]; [|reflexivity].
  simpl in Hold. unfold recent.
  rewrite filter_all_false; [simpl; apply Z.leb_gt; lia|].
  intros x Hx. apply lt_false. apply Hold, Hx.
Qed.

Lemma lockout_expires_witness :
  _is_user_locked_out
    (snd (record_authentication_failure
            (snd (record_all (init default_config) "alice" "bad pin" [1; 2]))
            "alice" "bad pin" 3))
    "alice" 400 = false.
Proof.
  apply lockout_expires.
  - vm_compute. discriminate.
  - intros t0 H. vm_compute in H.
    destruct H as [<-|[<-|[<-|[]]]]; vm_compute; discriminate.
Defined.

End LockOutMore.

(* ================================================================== *)
(** * Executing the recommended actions *)
(* ================================================================== *)
Section ExecutingActions.

Import AdaptiveResponseManager.

(** The actions whose execution asks something of the user. *)
Definition asks_user (a : ResponseAction) : bool :=
  match a with
  | CHALLENGE_PIN | CHALLENGE_BIOMETRIC | LOGOUT => true
  | _ => false
  end.

(** The actions [_execute_single_action] has no branch for. *)
Definition unhandled (a : ResponseAction) : bool :=
  match a with
  | CHALLENGE_SMS | LOCK_SESSION => true
  | _ => false
  end.

Lemma single_action_result (self : t) (a : ResponseAction) (user_id session_id : string)
    (env : fresh) :
  action (fst (_execute_single_action self a user_id session_id env)) = action_value a
  /\ success (fst (_execute_single_action self a user_id session_id env)) = negb (unhandled a)
  /\ Py.str_in (message (fst (_execute_single_action self a user_id session_id env)))
       user_action_responses = asks_user a
  /\ (unhandled a = true -> snd (_execute_single_action self a user_id session_id env) = self).
Proof. destruct a; repeat split; discriminate. Qed.

Lemma execute_from_results (actions : list ResponseAction) (user_id session_id : string)
    (env : nat -> fresh) :
  forall (self : t) (i : nat),
    action <$> fst (execute_from self actions user_id session_id env i)
    = action_value <$> actions
    /\ success <$> fst (execute_from self actions user_id session_id env i)
       = (fun a => negb (unhandled a)) <$> actions
    /\ _requires_user_action (fst (execute_from self actions user_id session_id env i))
       = existsb asks_user actions.
Proof.
  induction actions as [|a rest IH]; intros self i; [repeat split|].
  simpl execute_from.
  destruct (single_action_result self a user_id session_id (env i)) as (Ha & Hs & Hm & _).
  destruct (_execute_single_action self a user_id session_id (env i)) as [r self'].
  destruct (IH self' (S i)) as (IH1 & IH2 & IH3).
  destruct (execute_from self' rest user_id session_id env (S i)) as [rs self''].
  cbn [fst snd] in *. rewrite !fmap_cons, IH1, IH2, Ha, Hs.
  split; [reflexivity|]. split; [reflexivity|].
  unfold _requires_user_action in *. cbn [existsb]. by rewrite Hm, IH3.
Qed.

(** X25. The response reports [requires_user_action] exactly when the
    recommended actions contain the PIN challenge, the biometric challenge or
    logout. *)
Theorem user_action_required_exactly
    (self : t) (alert : ResponseEngine.alert) (user_id session_id : string)
    (env : nat -> fresh) :
  _requires_user_action (fst (_execute_response_actions self alert user_id session_id env))
  = true
  <-> CHALLENGE_PIN ∈ ResponseEngine.recommended_actions alert
      \/ CHALLENGE_BIOMETRIC ∈ ResponseEngine.recommended_actions alert
      \/ LOGOUT ∈ ResponseEngine.recommended_actions alert.
Proof.
  unfold _execute_response_actions.
  rewrite (proj2 (proj2 (execute_from_results _ user_id session_id env self 0))).
  rewrite existsb_exists. split.
  - intros (a & Hin & Ha). apply list_elem_of_In in Hin.
    destruct a; try discriminate; tauto.
  - intros [H|[H|H]]; eexists; (split; [apply list_elem_of_In, H | reflexivity]).
Qed.

(** X26. The results come one per recommended action, in order.  The SMS
    challenge and the session lock have no branch in [_execute_single_action]:
    they are the only actions reported unsuccessful, their message is "Unknown
    action: ...", and executing them changes nothing. *)
Theorem sms_and_lock_are_not_executed
    (self : t) (alert : ResponseEngine.alert) (user_id session_id : string)
    (env : nat -> fresh) :
  action <$> fst (_execute_response_actions self alert user_id session_id env)
  = action_value <$> ResponseEngine.recommended_actions alert
  /\ success <$> fst (_execute_response_actions self alert user_id session_id env)
     = (fun a => negb (unhandled a)) <$> ResponseEngine.recommended_actions alert
  /\ (forall e,
        _execute_single_action self CHALLENGE_SMS user_id session_id e
        = ({| action := "challenge_sms"; success := false;
              message := "Unknown action: challenge_sms"; result_data := NoData |}, self))
  /\ (forall e,
        _execute_single_action self LOCK_SESSION user_id session_id e
        = ({| action := "lock_session"; success := false;
              message := "Unknown action: lock_session"; result_data := NoData |}, self)).
Proof.
  unfold _execute_response_actions.
  destruct (execute_from_results (ResponseEngine.recommended_actions alert)
              user_id session_id env self 0) as (H1 & H2 & _).
  repeat split; assumption.
Qed.

End ExecutingActions.

(* ================================================================== *)
(** * The behavioral session *)
(* ================================================================== *)
Section BehavioralSession.

Import BehavioralDataManager BehavioralStart.

(** The manager as [__init__] leaves it. *)
Definition new_manager : t :=
  {| current_session := None; is_running := false;
     keystroke_collector_active := false; mouse_collector_active := false |}.

Definition returned (o : Outcome unit) : bool :=
  match o with Returned _ => true | Raised _ => false end.

Lemma start_session_passes_guard (self : t) (user_id session_id : string) (now : Q)
    (ks ms : Outcome unit) (baseline : bool) :
  (forall s, current_session self = Some s -> is_active s = false) ->
  current_session (snd (start_session self user_id session_id now ks ms baseline))
  = Some {| BehavioralDataManager.session_id := session_id;
            BehavioralDataManager.user_id := user_id;
            start_time := now; features_collected := 0;
            is_active := true; confidence_score := 0.0 |}
  /\ is_running (snd (start_session self user_id session_id now ks ms baseline)) = true
  /\ fst (start_session self user_id session_id now ks ms baseline)
     = (keystroke_collector_active self || returned ks)
       && (mouse_collector_active self || returned ms) && baseline.
Proof.
  intros Hidle. unfold start_session, start_collection.
  assert (Hguard : match current_session self with
                   | Some s => is_active s | None => false end = false).
  { destruct (current_session self) as [s|]; [by apply Hidle | reflexivity]. }
  rewrite Hguard.
  destruct (keystroke_collector_active self); destruct ks;
    destruct (mouse_collector_active self); destruct ms; destruct baseline;
    repeat split.
Qed.

(** X27. [start_session] refuses while a session is active and then changes
    nothing.  Otherwise the new session becomes the current, active one and
    collection is marked running on every path, also when the call answers
    [False] because a listener set-up raised or the baseline did not start; the
    answer is [True] exactly when both collectors are up and the baseline
    started.  So after any such call a further [start_session] is refused, and
    only [stop_session] makes a new start possible. *)
Theorem start_session_takes_the_slot
    (self : t) (user_id session_id user_id' session_id' : string) (now now' : Q)
    (ks ms ks' ms' : Outcome unit) (baseline baseline' : bool) :
  (forall s, current_session self = Some s -> is_active s = false) ->
  current_session (snd (start_session self user_id session_id now ks ms baseline))
  = Some {| BehavioralDataManager.session_id := session_id;
            BehavioralDataManager.user_id := user_id;
            start_time := now; features_collected := 0;
            is_active := true; confidence_score := 0.0 |}
  /\ fst (start_session self user_id session_id now ks ms baseline)
     = (keystroke_collector_active self || returned ks)
       && (mouse_collector_active self || returned ms) && baseline
  /\ start_session (snd (start_session self user_id session_id now ks ms baseline))
       user_id' session_id' now' ks' ms' baseline'
     = (false, snd (start_session self user_id session_id now ks ms baseline))
  /\ fst (start_session
            (snd (stop_session (snd (start_session self user_id session_id now ks ms baseline))))
            user_id' session_id' now' (Returned tt) (Returned tt) true) = true.
Proof.
  intros Hidle.
  destruct (start_session_passes_guard self user_id session_id now ks ms baseline Hidle)
    as (Hcur & Hrun & Hres).
  split; [exact Hcur|]. split; [exact Hres|]. split.
  - unfold start_session at 1. rewrite Hcur. reflexivity.
  - set (st := snd (start_session self user_id session_id now ks ms baseline)) in *.
    assert (Hstop : forall s, current_session (snd (stop_session st)) = Some s ->
                              is_active s = false).
    { unfold stop_session. rewrite Hcur. simpl. intros s [= <-]. reflexivity. }
    rewrite (proj2 (proj2 (start_session_passes_guard _ user_id' session_id' now'
                             (Returned tt) (Returned tt) true Hstop))).
    simpl. by rewrite !orb_true_r.
Qed.

Lemma start_session_takes_the_slot_witness :
  start_session (snd (start_session new_manager "alice" "s1" 0 (Returned tt) (Returned tt) false))
    "bob" "s2" 5 (Returned tt) (Returned tt) true
  = (false, snd (start_session new_manager "alice" "s1" 0 (Returned tt) (Returned tt) false)).
Proof.
  apply (start_session_takes_the_slot new_manager "alice" "s1" "bob" "s2" 0 5
           (Returned tt) (Returned tt) (Returned tt) (Returned tt) false true).
  intros s H. discriminate.
Defined.

(** After [stop_session] the manager delivers no features, whatever the
    collectors hold, and is no longer running; a second [stop_session] leaves
    the state as it is. *)
Lemma stopped_session_has_no_features (self : t) (s : BehaviorSession)
    (collected : Outcome BiometricFeatures) :
  current_session self = Some s ->
  fst (stop_session self) = true
  /\ get_current_features (snd (stop_session self)) collected = Returned None
  /\ is_running (snd (stop_session self)) = false
  /\ snd (stop_session (snd (stop_session self))) = snd (stop_session self).
Proof.
  intros Hs. unfold stop_session, get_current_features. rewrite Hs. simpl. repeat split.
Qed.

End BehavioralSession.

(* ================================================================== *)
(** * The authentication manager *)
(* ================================================================== *)
Section AuthenticationMore.

Import AuthenticationManager.

(** X28. In every result of [authenticate_continuously], [success] holds
    exactly for the decisions 'continue' and 'monitor'; and a session that
    fails validation is answered with 'logout', confidence 0.0 and the message
    "Session validation failed". *)
Theorem success_means_continue_or_monitor
    (self : t) (sid : string) (context : option Context) (clock : Clock)
    (collected : Outcome BehavioralDataManager.BiometricFeatures) :
  (success (fst (authenticate_continuously self sid context clock collected)) = true
   <-> decision (fst (authenticate_continuously self sid context clock collected)) = Continue
       \/ decision (fst (authenticate_continuously self sid context clock collected)) = Monitor)
  /\ (fst (fst (SecurityManager.validate_session (security_manager self) sid
                  (context ≫= ctx_device_fingerprint) (context ≫= ctx_ip_address)
                  (t_exp clock) (t_idle clock) (t_upd clock) (t_age clock))) = false ->
      fst (authenticate_continuously self sid context clock collected)
      = {| success := false; confidence := 0.0; user_id := "unknown"; session_id := sid;
           decision := Logout; message := "Session validation failed" |}).
Proof.
  unfold authenticate_continuously.
  destruct (SecurityManager.validate_session _ _ _ _ _ _ _ _) as [[valid info] sec].
  cbn -[MLManager.analyze_behavior].
  destruct valid; [|split; [split; [discriminate | intros [?|?]; discriminate] | reflexivity]].
  destruct info as [info|];
    [|split; [split; [discriminate | intros [?|?]; discriminate] | discriminate]].
  split; [|discriminate].
  destruct (BehavioralDataManager.get_current_features _ _) as [[bf|]|e];
    cbn -[MLManager.analyze_behavior].
  - destruct (active_sessions self !! sid) as [s|]; cbn -[MLManager.analyze_behavior].
    + destruct (MLManager.decision _); split;
        try discriminate; try tauto; intros [?|?]; discriminate.
    + split; [discriminate | intros [?|?]; discriminate].
  - split; [tauto | reflexivity].
  - split; [discriminate | intros [?|?]; discriminate].
Qed.

Lemma stop_session_twice (bm : BehavioralDataManager.t) :
  snd (BehavioralDataManager.stop_session (snd (BehavioralDataManager.stop_session bm)))
  = snd (BehavioralDataManager.stop_session bm).
Proof.
  unfold BehavioralDataManager.stop_session.
  destruct (BehavioralDataManager.current_session bm) eqn:E; simpl; [reflexivity|].
  by rewrite E.
Qed.

Lemma invalidate_session_twice (sm : SessionManager.t) (sid : string) :
  snd (SessionManager.invalidate_session (snd (SessionManager.invalidate_session sm sid)) sid)
  = snd (SessionManager.invalidate_session sm sid).
Proof.
  unfold SessionManager.invalidate_session at 1.
  by rewrite invalidate_removes.
Qed.

Lemma delete_twice {V} (m : gmap string V) (k : string) : delete k (delete k m) = delete k m.
Proof. apply delete_id, lookup_delete_eq. Qed.

(** X29. Ending a session is final and idempotent: after [end_session] every
    authentication of that session id, with any context, clock and collected
    features, is answered 'logout' with "Session validation failed"; and ending
    it a second time answers [True] and leaves the state as it is. *)
Theorem ended_session_is_logged_out
    (self : t) (sid : string) (context : option Context) (clock : Clock)
    (collected : Outcome BehavioralDataManager.BiometricFeatures) :
  fst (authenticate_continuously (snd (end_session self sid)) sid context clock collected)
  = {| success := false; confidence := 0.0; user_id := "unknown"; session_id := sid;
       decision := Logout; message := "Session validation failed" |}
  /\ end_session (snd (end_session self sid)) sid = (true, snd (end_session self sid)).
Proof.
  assert (Hgone : SessionManager.active_sessions
                    (SecurityManager.session_manager
                       (security_manager (snd (end_session self sid)))) !! sid = None).
  { unfold end_session. simpl. apply invalidate_removes. }
  split.
  - unfold authenticate_continuously, SecurityManager.validate_session.
    pose proof (validate_session_cases
                  (SecurityManager.session_manager (security_manager (snd (end_session self sid))))
                  sid (context ≫= ctx_device_fingerprint) (context ≫= ctx_ip_address)
                  (t_exp clock) (t_idle clock) (t_upd clock)) as Hc.
    rewrite Hgone in Hc. rewrite Hc. reflexivity.
  - unfold end_session.
    cbn [snd behavioral_manager security_manager ml_manager feature_extractor
         active_sessions feature_history stats
         SecurityManager.session_manager SecurityManager.security_events].
    rewrite stop_session_twice, invalidate_session_twice, !delete_twice. reflexivity.
Qed.

Definition sum_confidence (analyses : list MLManager.analysis) : Q :=
  fold_right (fun a acc => MLManager.combined_confidence a + acc) 0 analyses.

Definition counted (st : auth_stats) : nat :=
  (successful_authentications st + challenged_authentications st
   + failed_authentications st)%nat.

Lemma inject_succ (n : nat) : inject_Z (Z.of_nat (S n)) == inject_Z (Z.of_nat n) + 1.
Proof. rewrite Nat2Z.inj_succ. unfold Z.succ. rewrite inject_Z_plus. reflexivity. Qed.

Lemma update_auth_stats_step (self : t) (a : MLManager.analysis) :
  total_authentications (stats (_update_auth_stats self a))
  = S (total_authentications (stats self))
  /\ counted (stats (_update_auth_stats self a)) = S (counted (stats self))
  /\ average_confidence (stats (_update_auth_stats self a))
     * inject_Z (Z.of_nat (S (total_authentications (stats self))))
     == average_confidence (stats self) * inject_Z (Z.of_nat (total_authentications (stats self)))
        + MLManager.combined_confidence a.
Proof.
  unfold _update_auth_stats, counted. cbn [stats total_authentications
    successful_authentications challenged_authentications failed_authentications
    average_confidence].
  split; [reflexivity|]. split; [destruct (MLManager.decision a); lia|].
  set (n := total_authentications (stats self)).
  assert (Hpos : ~ inject_Z (Z.of_nat (S n)) == 0).
  { rewrite inject_succ. pose proof (Nat2Z.is_nonneg n) as Hn.
    assert (0 <= inject_Z (Z.of_nat n))
      by (change 0 with (inject_Z 0); rewrite <- (Zle_Qle 0 (Z.of_nat n)); exact Hn).
    lra. }
  set (d := inject_Z (Z.of_nat (S n))) in *.
  assert (Hd : d - 1 == inject_Z (Z.of_nat n)) by (unfold d; rewrite inject_succ; ring).
  rewrite Hd. field. exact Hpos.
Qed.

(** X30. The statistics are running counts and a running mean: starting
    from a state with no authentication counted, after any sequence of
    [_update_auth_stats] calls the total is the number of calls, each call was
    counted in exactly one of successful / challenged / failed, and the average
    confidence times the number of calls is the sum of the combined
    confidences. *)
Theorem statistics_are_running_means (self : t) (analyses : list MLManager.analysis) :
  total_authentications (stats self) = 0%nat ->
  total_authentications (stats (fold_left _update_auth_stats analyses self))
  = length analyses
  /\ counted (stats (fold_left _update_auth_stats analyses self))
     = (counted (stats self) + length analyses)%nat
  /\ average_confidence (stats (fold_left _update_auth_stats analyses self))
     * inject_Z (Z.of_nat (length analyses))
     == sum_confidence analyses.
Proof.
  intros Hzero.
  assert (Hgen : forall l st,
             total_authentications (stats (fold_left _update_auth_stats l st))
             = (total_authentications (stats st) + length l)%nat
             /\ counted (stats (fold_left _update_auth_stats l st))
                = (counted (stats st) + length l)%nat
             /\ average_confidence (stats (fold_left _update_auth_stats l st))
                * inject_Z (Z.of_nat (total_authentications (stats st) + length l))
                == average_confidence (stats st)
                   * inject_Z (Z.of_nat (total_authentications (stats st)))
                   + sum_confidence l).
  { clear. induction l as [|a l IH]; intros st.
    - simpl. rewrite !Nat.add_0_r. repeat split. ring.
    - simpl fold_left. destruct (IH (_update_auth_stats st a)) as (H1 & H2 & H3).
      destruct (update_auth_stats_step st a) as (S1 & S2 & S3).
      rewrite S1 in H1, H3. rewrite S2 in H2. simpl length. simpl sum_confidence.
      rewrite <- !Nat.add_succ_comm. split; [exact H1|]. split; [exact H2|].
      rewrite H3, S3. ring. }
  destruct (Hgen analyses self) as (H1 & H2 & H3). rewrite Hzero in *. simpl in *.
  split; [exact H1|]. split; [exact H2|]. rewrite H3. ring.
Qed.

Lemma statistics_are_running_means_witness :
  total_authentications
    (stats (fold_left _update_auth_stats
              [MLManager.analyze_behavior (ml_manager alice_auth) ∅ "default"] alice_auth))
  = 1%nat.
Proof.
  apply (statistics_are_running_means alice_auth
           [MLManager.analyze_behavior (ml_manager alice_auth) ∅ "default"]).
  reflexivity.
Defined.

End AuthenticationMore.
